(** * The drawer of reanimated-2-drawer: a shallow embedding of
      [src/Drawer.tsx] and [src/Overlay.tsx]

    JavaScript numbers are modelled by the rationals [Q]: the finite values,
    with exact arithmetic in place of IEEE rounding.  [===] on numbers is
    [Qeq_bool], [Math.min], [Math.max] and [Math.abs] are [Qmin], [Qmax] and
    [Qabs].  The only place where the source can meet a value that is not
    finite is the result of [Number(...)] in [getDrawerWidth]; that result has
    a type of its own, [JSNumber]. *)

From Stdlib Require Import QArith Qabs Qminmax Lqa ZArith Bool List String Ascii Lia.
Import ListNotations.
Local Open Scope Q_scope.

(** ** Numbers *)

Module Math.
Definition min (a b : Q) : Q := Qmin a b.
Definition max (a b : Q) : Q := Qmax a b.
Definition abs (a : Q) : Q := Qabs a.
End Math.

(** [a > b] and [a < b] as the booleans JavaScript computes. *)
Definition gtb (a b : Q) : bool := negb (Qle_bool a b).
Definition ltb (a b : Q) : bool := negb (Qle_bool b a).
(** [a === b] on numbers. *)
Definition eqb (a b : Q) : bool := Qeq_bool a b.

(** What [Number(s)] may return. *)
Inductive JSNumber : Type :=
| Finite (q : Q)
| PosInfinity
| NegInfinity
| NaN.

Module Number.
Definition isFinite (n : JSNumber) : bool :=
  match n with Finite _ => true | _ => false end.
End Number.

(** ** Props *)

Inductive DrawerPosition : Type := Left | Right.
Inductive DrawerType : Type := front | back | slide | permanent.
Inductive KeyboardDismissMode : Type := none | on_drag.
Inductive PlatformOS : Type := ios | android | web | windows | macos.

(** [State] of react-native-gesture-handler. *)
Inductive GestureState : Type :=
| UNDETERMINED | FAILED | BEGAN | CANCELLED | ACTIVE | END.

(** The [width] entry of a flattened style: a number or a string. *)
Inductive StyleWidth : Type :=
| WNumber (n : Q)
| WString (s : string).

(** A flattened [ViewStyle], as far as the drawer reads it; [None] is a key
    that is absent or [undefined]. *)
Record ViewStyle : Type := { style_width : option StyleWidth }.

(** The host's [gestureHandlerProps], as far as they collide with the props
    the drawer passes itself: [Some b] is an [enabled] key holding [b]. *)
Record GestureHandlerProps : Type := { ghp_enabled : option bool }.

Record Dimensions : Type := { dim_width : Q; dim_height : Q }.

(** The props of [Drawer] after the defaults of the parameter list have been
    applied, and the platform the component runs on. *)
Record Props : Type := {
  open : bool;
  gestureEnabled : bool;
  swipeEnabled : bool;
  drawerPosition : DrawerPosition;
  drawerType : DrawerType;
  keyboardDismissMode : KeyboardDismissMode;
  swipeEdgeWidth : Q;
  swipeDistanceThreshold : Q;
  swipeVelocityThreshold : Q;
  hideStatusBarOnOpen : bool;
  drawerStyle : option ViewStyle;
  gestureHandlerProps : option GestureHandlerProps;
  dimensions : Dimensions;
  Platform_OS : PlatformOS
}.

Definition SWIPE_DISTANCE_THRESHOLD_DEFAULT : Q := 60.
Definition SWIPE_DISTANCE_MINIMUM : Q := 5.
Definition DEFAULT_DRAWER_WIDTH : string := "80%".

Definition DrawerPosition_eqb (a b : DrawerPosition) : bool :=
  match a, b with Left, Left | Right, Right => true | _, _ => false end.

Definition DrawerType_eqb (a b : DrawerType) : bool :=
  match a, b with
  | front, front | back, back | slide, slide | permanent, permanent => true
  | _, _ => false
  end.

Definition GestureState_eqb (a b : GestureState) : bool :=
  match a, b with
  | UNDETERMINED, UNDETERMINED | FAILED, FAILED | BEGAN, BEGAN
  | CANCELLED, CANCELLED | ACTIVE, ACTIVE | END, END => true
  | _, _ => false
  end.

(** ** [getDrawerWidth] *)

(** [s.endsWith(suffix)]. *)
Fixpoint endsWith (s suffix : string) : bool :=
  if String.eqb s suffix then true
  else match s with
       | EmptyString => false
       | String _ s' => endsWith s' suffix
       end.

(** [s.replace(/%$/, '')]: a percent sign at the very end is removed. *)
Fixpoint replace_percent_end (s : string) : string :=
  match s with
  | EmptyString => EmptyString
  | String c s' =>
      match s' with
      | EmptyString => if Ascii.eqb c "%"%char then EmptyString else s
      | String _ _ => String c (replace_percent_end s')
      end
  end.

Section DrawerWidth.
(** The builtin [Number], applied to a string. *)
Variable Number : string -> JSNumber.

Definition getDrawerWidth (p : Props) : Q :=
  (* const { width = DEFAULT_DRAWER_WIDTH } = StyleSheet.flatten(drawerStyle) || {} *)
  let width :=
    match drawerStyle p with
    | Some st =>
        match style_width st with
        | Some w => w
        | None => WString DEFAULT_DRAWER_WIDTH
        end
    | None => WString DEFAULT_DRAWER_WIDTH
    end in
  (* return typeof width === 'number' ? width : 0 *)
  let fallback := match width with WNumber n => n | WString _ => 0 end in
  match width with
  | WString s =>
      if endsWith s "%" then
        let percentage := Number (replace_percent_end s) in
        match percentage with
        | Finite pc => (* Number.isFinite(percentage) *)
            dim_width (dimensions p) * (pc / 100)
        | _ => fallback
        end
      else fallback
  | WNumber _ => fallback
  end.
End DrawerWidth.

(** ** The geometry: everything below closes over [props] and [drawerWidth] *)

Section Geometry.
Variable p : Props.
Variable drawerWidth : Q.

Definition isOpen : bool :=
  if DrawerType_eqb (drawerType p) permanent then true else open p.

Definition isRight : bool := DrawerPosition_eqb (drawerPosition p) Right.

(** The [enabled] prop the [PanGestureHandler] ends up with: the drawer's own
    value, overwritten by the spread of [gestureHandlerProps] that follows
    it in the JSX element. *)
Definition PanGestureHandler_enabled : bool :=
  let own :=
    negb (DrawerType_eqb (drawerType p) permanent)
    && gestureEnabled p && swipeEnabled p in
  match gestureHandlerProps p with
  | Some g => match ghp_enabled g with Some b => b | None => own end
  | None => own
  end.

Definition getDrawerTranslationX (open : bool) : Q :=
  match drawerPosition p with
  | Left => if open then 0 else - drawerWidth
  | Right =>
      if open then dim_width (dimensions p) - drawerWidth
      else dim_width (dimensions p)
  end.

(** The decision taken in [onEnd] from the event's [translationX] and
    [velocityX]. *)
Definition nextOpen (ev_translationX ev_velocityX : Q) : bool :=
  if (gtb (Math.abs ev_translationX) SWIPE_DISTANCE_MINIMUM
      && gtb (Math.abs ev_translationX) (swipeVelocityThreshold p))
     || gtb (Math.abs ev_translationX) (swipeDistanceThreshold p)
  then
    match drawerPosition p with
    | Left =>
        gtb (if eqb ev_velocityX 0 then ev_translationX else ev_velocityX) 0
    | Right =>
        ltb (if eqb ev_velocityX 0 then ev_translationX else ev_velocityX) 0
    end
  else open p.

Definition minmax (value start end_ : Q) : Q :=
  Math.min (Math.max value start) end_.

(** The derived value [translateX], from the three shared values it reads. *)
Definition touchDistance (touchX translationX : Q) (gestureState : GestureState) : Q :=
  if DrawerType_eqb (drawerType p) front && GestureState_eqb gestureState ACTIVE
  then
    match drawerPosition p with
    | Left => Math.min (translationX - touchX + drawerWidth) 0
    | Right =>
        Math.min (translationX - touchX)
                 (dim_width (dimensions p) - drawerWidth)
    end
  else 0.

Definition translateX (touchX translationX : Q) (gestureState : GestureState) : Q :=
  let td := touchDistance touchX translationX gestureState in
  match drawerPosition p with
  | Left => minmax (translationX - td) (- drawerWidth) 0
  | Right =>
      minmax (translationX - td)
             (dim_width (dimensions p) - drawerWidth)
             (dim_width (dimensions p))
  end.

(** The first function of [useAnimatedReaction]. *)
Definition reaction_prepare (translateX_value : Q) : option bool :=
  if eqb translateX_value (getDrawerTranslationX true) then Some true
  else if eqb translateX_value (getDrawerTranslationX false) then Some false
  else None.

(** [progress], from the value of [translateX]. *)
Definition progress (translateX_value : Q) : Q :=
  (drawerWidth - Math.abs translateX_value) / drawerWidth.
End Geometry.

(** ** [Overlay] *)

Definition PROGRESS_EPSILON : Q := 5 # 100.

Record OverlayStyle : Type := { opacity : Q; zIndex : Z }.

Definition Overlay_animatedStyle (progress_value : Q) : OverlayStyle :=
  {| opacity := progress_value;
     zIndex := if gtb progress_value PROGRESS_EPSILON then 0%Z else (-1)%Z |}.

(** ** The component's state and its handlers *)

(** The payload of a pan gesture event. *)
Record PanEvent : Type := {
  ev_x : Q;
  ev_translationX : Q;
  ev_velocityX : Q;
  ev_state : GestureState
}.

(** The object [withSpring(toValue, config)] builds. *)
Record SpringConfig : Type := {
  velocity : option Q;
  stiffness : Q;
  damping : Q;
  mass : Q;
  overshootClamping : bool;
  restDisplacementThreshold : Q;
  restSpeedThreshold : Q
}.

Record Animation : Type := { toValue : Q; config : SpringConfig }.

Definition withSpring (toValue : Q) (config : SpringConfig) : Animation :=
  {| toValue := toValue; config := config |}.

(** A shared value that can be animated: its current [value], and the
    animation that was assigned to it and has not come to rest.  Assigning a
    number drops the animation; assigning an animation keeps the current value
    and replaces whatever animation was running. *)
Record SharedValue : Type := { value : Q; animation : option Animation }.

Definition assign (v : Q) : SharedValue := {| value := v; animation := None |}.
Definition animate (sv : SharedValue) (a : Animation) : SharedValue :=
  {| value := value sv; animation := Some a |}.

(** [InteractionManager]: the handles that are held, and the next fresh one. *)
Record InteractionManagerState : Type := {
  handles : list nat;
  nextHandle : nat
}.

Record World : Type := {
  touchX : Q;
  translationX : SharedValue;
  gestureState : GestureState;
  ctx_startX : Q;
  interactionHandleRef : option nat;
  InteractionManager : InteractionManagerState;
  StatusBar_hidden : bool;
  Keyboard_visible : bool;
  setOpen_calls : list bool;
  mounted : bool
}.

Definition set_touchX (v : Q) (w : World) : World :=
  {| touchX := v; translationX := translationX w; gestureState := gestureState w;
     ctx_startX := ctx_startX w; interactionHandleRef := interactionHandleRef w;
     InteractionManager := InteractionManager w;
     StatusBar_hidden := StatusBar_hidden w; Keyboard_visible := Keyboard_visible w;
     setOpen_calls := setOpen_calls w; mounted := mounted w |}.

Definition set_translationX (sv : SharedValue) (w : World) : World :=
  {| touchX := touchX w; translationX := sv; gestureState := gestureState w;
     ctx_startX := ctx_startX w; interactionHandleRef := interactionHandleRef w;
     InteractionManager := InteractionManager w;
     StatusBar_hidden := StatusBar_hidden w; Keyboard_visible := Keyboard_visible w;
     setOpen_calls := setOpen_calls w; mounted := mounted w |}.

Definition set_gestureState (g : GestureState) (w : World) : World :=
  {| touchX := touchX w; translationX := translationX w; gestureState := g;
     ctx_startX := ctx_startX w; interactionHandleRef := interactionHandleRef w;
     InteractionManager := InteractionManager w;
     StatusBar_hidden := StatusBar_hidden w; Keyboard_visible := Keyboard_visible w;
     setOpen_calls := setOpen_calls w; mounted := mounted w |}.

Definition set_ctx_startX (v : Q) (w : World) : World :=
  {| touchX := touchX w; translationX := translationX w; gestureState := gestureState w;
     ctx_startX := v; interactionHandleRef := interactionHandleRef w;
     InteractionManager := InteractionManager w;
     StatusBar_hidden := StatusBar_hidden w; Keyboard_visible := Keyboard_visible w;
     setOpen_calls := setOpen_calls w; mounted := mounted w |}.

Definition set_interaction (r : option nat) (m : InteractionManagerState) (w : World) : World :=
  {| touchX := touchX w; translationX := translationX w; gestureState := gestureState w;
     ctx_startX := ctx_startX w; interactionHandleRef := r;
     InteractionManager := m;
     StatusBar_hidden := StatusBar_hidden w; Keyboard_visible := Keyboard_visible w;
     setOpen_calls := setOpen_calls w; mounted := mounted w |}.

Definition set_StatusBar_hidden (b : bool) (w : World) : World :=
  {| touchX := touchX w; translationX := translationX w; gestureState := gestureState w;
     ctx_startX := ctx_startX w; interactionHandleRef := interactionHandleRef w;
     InteractionManager := InteractionManager w;
     StatusBar_hidden := b; Keyboard_visible := Keyboard_visible w;
     setOpen_calls := setOpen_calls w; mounted := mounted w |}.

Definition set_Keyboard_visible (b : bool) (w : World) : World :=
  {| touchX := touchX w; translationX := translationX w; gestureState := gestureState w;
     ctx_startX := ctx_startX w; interactionHandleRef := interactionHandleRef w;
     InteractionManager := InteractionManager w;
     StatusBar_hidden := StatusBar_hidden w; Keyboard_visible := b;
     setOpen_calls := setOpen_calls w; mounted := mounted w |}.

(** The host's [setOpen] is called: the call is appended to the log. *)
Definition setOpen (b : bool) (w : World) : World :=
  {| touchX := touchX w; translationX := translationX w; gestureState := gestureState w;
     ctx_startX := ctx_startX w; interactionHandleRef := interactionHandleRef w;
     InteractionManager := InteractionManager w;
     StatusBar_hidden := StatusBar_hidden w; Keyboard_visible := Keyboard_visible w;
     setOpen_calls := setOpen_calls w ++ [b]; mounted := mounted w |}.

Definition set_mounted (b : bool) (w : World) : World :=
  {| touchX := touchX w; translationX := translationX w; gestureState := gestureState w;
     ctx_startX := ctx_startX w; interactionHandleRef := interactionHandleRef w;
     InteractionManager := InteractionManager w;
     StatusBar_hidden := StatusBar_hidden w; Keyboard_visible := Keyboard_visible w;
     setOpen_calls := setOpen_calls w; mounted := b |}.

(** [InteractionManager.createInteractionHandle()] and
    [InteractionManager.clearInteractionHandle(h)]. *)
Definition createInteractionHandle (m : InteractionManagerState)
  : nat * InteractionManagerState :=
  (nextHandle m,
   {| handles := nextHandle m :: handles m; nextHandle := S (nextHandle m) |}).

Definition clearInteractionHandle (h : nat) (m : InteractionManagerState)
  : InteractionManagerState :=
  {| handles := List.filter (fun h' => negb (Nat.eqb h' h)) (handles m);
     nextHandle := nextHandle m |}.

(** The events the component reacts to while its props stay as they are (a
    render with other props, which re-runs the effects that depend on them, is
    not one of them).  [runOnJS] calls are taken at the point where the
    worklet schedules them. *)
Inductive Event : Type :=
| RequestOpen (o : bool)        (* a call toggleDrawer(o), and nothing else: the specification's requestOpen *)
| OnStart (ev : PanEvent)       (* the gesture handler's onStart *)
| OnActive (ev : PanEvent)      (* onActive *)
| OnEnd (ev : PanEvent)         (* onEnd *)
| SpringFrame (v : Q)           (* a frame of the running spring puts the value at v *)
| SpringRest                    (* the running spring comes to rest at its target *)
| KeyUp (key : string)          (* keyup on document.body *)
| Unmount.                      (* the cleanups of the effects run *)

Section Component.
Variable p : Props.
Variable drawerWidth : Q.

Definition hideStatusBar (hide : bool) (w : World) : World :=
  if hideStatusBarOnOpen p then set_StatusBar_hidden hide w else w.

Definition startInteraction (w : World) : World :=
  let (h, m) := createInteractionHandle (InteractionManager w) in
  set_interaction (Some h) m w.

Definition endInteraction (w : World) : World :=
  match interactionHandleRef w with
  | Some h =>
      set_interaction None (clearInteractionHandle h (InteractionManager w)) w
  | None => w
  end.

Definition hideKeyboard (w : World) : World :=
  match keyboardDismissMode p with
  | on_drag => set_Keyboard_visible false w
  | none => w
  end.

Definition onGestureStart (w : World) : World :=
  hideStatusBar true (hideKeyboard (startInteraction w)).

Definition onGestureEnd (w : World) : World := endInteraction w.

Definition toggleDrawer (open : bool) (velocity : option Q) (w : World) : World :=
  let translateX := getDrawerTranslationX p drawerWidth open in
  let w := set_touchX (match drawerPosition p with
                       | Left => 0
                       | Right => dim_width (dimensions p)
                       end) w in
  set_translationX
    (animate (translationX w)
       (withSpring translateX
          {| velocity := velocity;
             stiffness := 1000;
             damping := 500;
             mass := 3;
             overshootClamping := true;
             restDisplacementThreshold := 1 # 100;
             restSpeedThreshold := 1 # 100 |})) w.

Definition onStart (ev : PanEvent) (w : World) : World :=
  let w := set_ctx_startX (value (translationX w)) w in
  let w := set_gestureState (ev_state ev) w in
  onGestureStart w.

Definition onActive (ev : PanEvent) (w : World) : World :=
  let w := set_touchX (ev_x ev) w in
  let w := set_translationX (assign (ctx_startX w + ev_translationX ev)) w in
  set_gestureState (ev_state ev) w.

Definition onEnd (ev : PanEvent) (w : World) : World :=
  let w := set_gestureState (ev_state ev) w in
  let nextOpen := nextOpen p (ev_translationX ev) (ev_velocityX ev) in
  let w := toggleDrawer nextOpen (Some (ev_velocityX ev)) w in
  onGestureEnd w.

Definition handleEscape (key : string) (w : World) : World :=
  if String.eqb key "Escape" then setOpen false w else w.

(** The value of the derived [translateX] in a world. *)
Definition translateX_value (w : World) : Q :=
  translateX p drawerWidth (touchX w) (value (translationX w)) (gestureState w).

Definition progress_value (w : World) : Q :=
  progress drawerWidth (translateX_value w).

(** The second function of [useAnimatedReaction]. *)
Definition reaction_react (o : option bool) (w : World) : World :=
  match o with
  | Some b => setOpen b w
  | None => w
  end.

(** One run of the reaction: the first function on the current [translateX],
    the second on its result.  The second function takes no look at the
    previous result, so a result that has not changed is reported again. *)
Definition reaction (w : World) : World :=
  reaction_react (reaction_prepare p drawerWidth (translateX_value w)) w.

(** Does the handler of the event write one of the shared values [translateX]
    is derived from ([touchX], [translationX], [gestureState])?  A frame or
    the rest of a spring writes [translationX] when a spring is attached. *)
Definition writes_shared_value (e : Event) (w : World) : bool :=
  match e with
  | RequestOpen _ | OnStart _ | OnActive _ | OnEnd _ => true
  | SpringFrame _ | SpringRest =>
      match animation (translationX w) with
      | Some _ => true
      | None => false
      end
  | KeyUp _ | Unmount => false
  end.

(** The reaction is a mapper over [translateX], which is a mapper over the
    shared values: it runs after a handler that wrote one of them, whether
    the value written is a new one or not.  How often the library runs it for
    the writes of one handler is not in the source: it is run once here, and
    the theorems about the calls of [setOpen] leave the number of repeated
    calls open. *)
Definition after_writes (e : Event) (before after : World) : World :=
  if writes_shared_value e before then reaction after else after.

Definition handle (e : Event) (w : World) : World :=
  match e with
  | RequestOpen o => toggleDrawer o None w
  | OnStart ev => onStart ev w
  | OnActive ev => onActive ev w
  | OnEnd ev => onEnd ev w
  | SpringFrame v =>
      match animation (translationX w) with
      | Some a => set_translationX {| value := v; animation := Some a |} w
      | None => w
      end
  | SpringRest =>
      match animation (translationX w) with
      | Some a => set_translationX (assign (toValue a)) w
      | None => w
      end
  | KeyUp key =>
      match Platform_OS p with
      | web => handleEscape key w
      | _ => w
      end
  | Unmount => set_mounted false (hideStatusBar false w)
  end.

(** One event: nothing reaches a component that is no longer mounted. *)
Definition step (w : World) (e : Event) : World :=
  if mounted w then after_writes e w (handle e w) else w.

Definition run (es : list Event) (w : World) : World :=
  List.fold_left step es w.

(** The world right after the first render and its effects: the shared values
    as [useSharedValue] creates them, then the effects in the order of the
    hooks: [hideStatusBar(open)], [toggleDrawer(open)], and the first run of
    the reaction, on the value [translateX] has before any frame. *)
Definition mount : World :=
  reaction
    (toggleDrawer (open p) None
       (hideStatusBar (open p)
          {| touchX := 0; translationX := assign 0; gestureState := UNDETERMINED;
             ctx_startX := 0; interactionHandleRef := None;
             InteractionManager := {| handles := []; nextHandle := 1 |};
             StatusBar_hidden := false; Keyboard_visible := true;
             setOpen_calls := []; mounted := true |})).
End Component.

(** ** The rule of the specification for the end of a gesture

    The decision as the specification words it, to be compared with
    [nextOpen]: the minimum distance guards both thresholds. *)
Definition nextOpen_spec (p : Props) (ev_translationX ev_velocityX : Q) : bool :=
  if gtb (Math.abs ev_translationX) SWIPE_DISTANCE_MINIMUM
     && (gtb (Math.abs ev_translationX) (swipeVelocityThreshold p)
         || gtb (Math.abs ev_translationX) (swipeDistanceThreshold p))
  then
    match drawerPosition p with
    | Left =>
        gtb (if eqb ev_velocityX 0 then ev_translationX else ev_velocityX) 0
    | Right =>
        ltb (if eqb ev_velocityX 0 then ev_translationX else ev_velocityX) 0
    end
  else open p.

(** ** Concrete values for the examples *)

(** [Number] on the strings the examples use: decimal digits give their value,
    the empty string gives 0, [Infinity] is infinite, anything else is not a
    number. *)
Fixpoint digits_value (acc : N) (s : string) : option N :=
  match s with
  | EmptyString => Some acc
  | String c s' =>
      let n := N_of_ascii c in
      if (48 <=? n)%N && (n <=? 57)%N
      then digits_value (acc * 10 + (n - 48))%N s'
      else None
  end.

Definition Number_digits (s : string) : JSNumber :=
  if String.eqb s "Infinity" then PosInfinity
  else match digits_value 0%N s with
       | Some n => Finite (inject_Z (Z.of_N n))
       | None => NaN
       end.

(** The props of the example application on a 400 x 800 viewport, the drawer
    300 wide, with every default of the parameter list. *)
Definition example_props (pos : DrawerPosition) (ty : DrawerType) (o : bool) : Props :=
  {| open := o;
     gestureEnabled := true;
     swipeEnabled := true;
     drawerPosition := pos;
     drawerType := ty;
     keyboardDismissMode := on_drag;
     swipeEdgeWidth := 32;
     swipeDistanceThreshold := SWIPE_DISTANCE_THRESHOLD_DEFAULT;
     swipeVelocityThreshold := 500;
     hideStatusBarOnOpen := false;
     drawerStyle := Some {| style_width := Some (WNumber 300) |};
     gestureHandlerProps := None;
     dimensions := {| dim_width := 400; dim_height := 800 |};
     Platform_OS := ios |}.

Definition pan (x t v : Q) (st : GestureState) : PanEvent :=
  {| ev_x := x; ev_translationX := t; ev_velocityX := v; ev_state := st |}.

(** The [width] the destructuring in [getDrawerWidth] finds in the flattened
    [drawerStyle], before the default is applied. *)
Definition declared_width (p : Props) : option StyleWidth :=
  match drawerStyle p with
  | Some st => style_width st
  | None => None
  end.

Definition with_drawerStyle (st : option ViewStyle) (p : Props) : Props :=
  {| open := open p; gestureEnabled := gestureEnabled p;
     swipeEnabled := swipeEnabled p; drawerPosition := drawerPosition p;
     drawerType := drawerType p; keyboardDismissMode := keyboardDismissMode p;
     swipeEdgeWidth := swipeEdgeWidth p;
     swipeDistanceThreshold := swipeDistanceThreshold p;
     swipeVelocityThreshold := swipeVelocityThreshold p;
     hideStatusBarOnOpen := hideStatusBarOnOpen p;
     drawerStyle := st;
     gestureHandlerProps := gestureHandlerProps p;
     dimensions := dimensions p; Platform_OS := Platform_OS p |}.

(** Is the event the key the web listener closes the drawer on? *)
Definition is_escape (p : Props) (e : Event) : bool :=
  match e, Platform_OS p with
  | KeyUp key, web => String.eqb key "Escape"
  | _, _ => false
  end.

Definition on_platform (os : PlatformOS) (p : Props) : Props :=
  {| open := open p; gestureEnabled := gestureEnabled p;
     swipeEnabled := swipeEnabled p; drawerPosition := drawerPosition p;
     drawerType := drawerType p; keyboardDismissMode := keyboardDismissMode p;
     swipeEdgeWidth := swipeEdgeWidth p;
     swipeDistanceThreshold := swipeDistanceThreshold p;
     swipeVelocityThreshold := swipeVelocityThreshold p;
     hideStatusBarOnOpen := hideStatusBarOnOpen p;
     drawerStyle := drawerStyle p;
     gestureHandlerProps := gestureHandlerProps p;
     dimensions := dimensions p; Platform_OS := os |}.

(** What one run of the reaction tells the host at a value of [translateX]. *)
Definition reported (p : Props) (drawerWidth : Q) (translateX_value : Q) : list bool :=
  match reaction_prepare p drawerWidth translateX_value with
  | Some o => [o]
  | None => []
  end.

(** The settled openness of the specification: the clamped offset is exactly
    the open target.  It is the test of the reaction's first branch. *)
Definition isOpenSettled (p : Props) (drawerWidth : Q) (w : World) : bool :=
  eqb (translateX_value p drawerWidth w) (getDrawerTranslationX p drawerWidth true).

(** A value strictly between the two targets. *)
Definition between (p : Props) (drawerWidth : Q) (v : Q) : Prop :=
  match drawerPosition p with
  | Left => - drawerWidth < v /\ v < 0
  | Right =>
      dim_width (dimensions p) - drawerWidth < v /\ v < dim_width (dimensions p)
  end.

(** Is the event a call of [toggleDrawer]? *)
Definition is_RequestOpen (e : Event) : bool :=
  match e with RequestOpen _ => true | _ => false end.

(** ** The rest of the render *)

(** [hitSlop]: the side the strip is anchored to and its width; [None] is
    [undefined]. *)
Record HitSlop : Type := {
  hs_left : option Q;
  hs_right : option Q;
  hs_width : option Q
}.

Definition hitSlop (p : Props) : HitSlop :=
  if isRight p
  then {| hs_left := None; hs_right := Some 0;
          hs_width := if isOpen p then None else Some (swipeEdgeWidth p) |}
  else {| hs_left := Some 0; hs_right := None;
          hs_width := if isOpen p then None else Some (swipeEdgeWidth p) |}.

(** The [translateX] of [drawerAnimatedStyle] and of [contentAnimatedStyle]. *)
Definition drawerAnimatedStyle (p : Props) (drawerWidth : Q) (w : World) : Q :=
  if DrawerType_eqb (drawerType p) back then 0
  else translateX_value p drawerWidth w.

Definition contentAnimatedStyle (p : Props) (drawerWidth : Q) (w : World) : Q :=
  if DrawerType_eqb (drawerType p) front || DrawerType_eqb (drawerType p) permanent
  then 0
  else translateX_value p drawerWidth w.

(** The [zIndex] of the drawer's own view. *)
Definition drawer_zIndex (p : Props) : Z :=
  if DrawerType_eqb (drawerType p) back then (-1)%Z else 0%Z.

(** The overlay is pressed: [onPress] is [() => toggleDrawer(false)] when
    [gestureEnabled], and [undefined] otherwise. *)
Definition Overlay_onPress (p : Props) (drawerWidth : Q) (w : World) : World :=
  if gestureEnabled p then step p drawerWidth w (RequestOpen false) else w.

(** The style the overlay gets in a world: [Overlay] applied to [progress]. *)
Definition Overlay_in (p : Props) (drawerWidth : Q) (w : World) : OverlayStyle :=
  Overlay_animatedStyle (progress_value p drawerWidth w).

Definition with_drawerPosition (pos : DrawerPosition) (p : Props) : Props :=
  {| open := open p; gestureEnabled := gestureEnabled p;
     swipeEnabled := swipeEnabled p; drawerPosition := pos;
     drawerType := drawerType p; keyboardDismissMode := keyboardDismissMode p;
     swipeEdgeWidth := swipeEdgeWidth p;
     swipeDistanceThreshold := swipeDistanceThreshold p;
     swipeVelocityThreshold := swipeVelocityThreshold p;
     hideStatusBarOnOpen := hideStatusBarOnOpen p;
     drawerStyle := drawerStyle p;
     gestureHandlerProps := gestureHandlerProps p;
     dimensions := dimensions p; Platform_OS := Platform_OS p |}.

Definition with_services (status : bool) (kb : KeyboardDismissMode) (p : Props) : Props :=
  {| open := open p; gestureEnabled := gestureEnabled p;
     swipeEnabled := swipeEnabled p; drawerPosition := drawerPosition p;
     drawerType := drawerType p; keyboardDismissMode := kb;
     swipeEdgeWidth := swipeEdgeWidth p;
     swipeDistanceThreshold := swipeDistanceThreshold p;
     swipeVelocityThreshold := swipeVelocityThreshold p;
     hideStatusBarOnOpen := status;
     drawerStyle := drawerStyle p;
     gestureHandlerProps := gestureHandlerProps p;
     dimensions := dimensions p; Platform_OS := Platform_OS p |}.

(** Kinds of events. *)
Definition is_OnStart (e : Event) : bool :=
  match e with OnStart _ => true | _ => false end.
Definition is_OnEnd (e : Event) : bool :=
  match e with OnEnd _ => true | _ => false end.
Definition is_Unmount (e : Event) : bool :=
  match e with Unmount => true | _ => false end.

(** The events in the middle of a gesture: neither its start, nor its end,
    nor the unmount. *)
Definition inside_gesture (e : Event) : bool :=
  negb (is_OnStart e) && negb (is_OnEnd e) && negb (is_Unmount e).

(** The handles of the manager are older than the next one it will give. *)
Definition handles_fresh (w : World) : Prop :=
  forall h, In h (handles (InteractionManager w)) ->
            (h < nextHandle (InteractionManager w))%nat.

(** The screen edge [toggleDrawer] moves [touchX] to. *)
Definition edge (p : Props) : Q :=
  match drawerPosition p with
  | Left => 0
  | Right => dim_width (dimensions p)
  end.

(** The clamped offset of a drawer whose [touchX] is at the screen edge. *)
Definition at_edge (p : Props) (drawerWidth : Q) (v : Q) (g : GestureState) : Q :=
  translateX p drawerWidth (edge p) v g.

(** ** Reflection of the comparisons *)

Lemma gtb_true (a b : Q) : gtb a b = true <-> b < a.
Proof.
  unfold gtb. rewrite negb_true_iff.
  destruct (Qle_bool a b) eqn:E.
  - apply Qle_bool_iff in E. split; [discriminate | intro H; exfalso; lra].
  - split; [intros _ | reflexivity].
    destruct (Qlt_le_dec b a) as [H | H]; [exact H |].
    apply Qle_bool_iff in H. congruence.
Qed.

Lemma gtb_false (a b : Q) : gtb a b = false <-> a <= b.
Proof.
  unfold gtb. rewrite negb_false_iff. apply Qle_bool_iff.
Qed.

Lemma ltb_true (a b : Q) : ltb a b = true <-> a < b.
Proof. unfold ltb. apply (gtb_true b a). Qed.

Lemma eqb_true (a b : Q) : eqb a b = true <-> a == b.
Proof. unfold eqb. apply Qeq_bool_iff. Qed.

Lemma eqb_false (a b : Q) : eqb a b = false <-> ~ a == b.
Proof.
  unfold eqb. split.
  - intros E H. apply Qeq_bool_iff in H. congruence.
  - intro H. destruct (Qeq_bool a b) eqn:E; [| reflexivity].
    apply Qeq_bool_iff in E. contradiction.
Qed.

Lemma min_cases (a b : Q) :
  (a <= b /\ Math.min a b == a) \/ (b < a /\ Math.min a b == b).
Proof.
  unfold Math.min. destruct (Qlt_le_dec b a) as [L | L].
  - right. split; [exact L |]. apply Q.min_r. lra.
  - left. split; [exact L |]. apply Q.min_l. exact L.
Qed.

Lemma max_cases (a b : Q) :
  (a <= b /\ Math.max a b == b) \/ (b < a /\ Math.max a b == a).
Proof.
  unfold Math.max. destruct (Qlt_le_dec b a) as [L | L].
  - right. split; [exact L |]. apply Q.max_l. lra.
  - left. split; [exact L |]. apply Q.max_r. exact L.
Qed.

Lemma abs_cases (a : Q) :
  (0 <= a /\ Math.abs a == a) \/ (a < 0 /\ Math.abs a == - a).
Proof.
  unfold Math.abs. destruct (Qlt_le_dec a 0) as [L | L].
  - right. split; [exact L |]. rewrite Qabs_neg by lra. reflexivity.
  - left. split; [exact L |]. rewrite Qabs_pos by lra. reflexivity.
Qed.

(** [minmax] stays inside a range that is not empty. *)
Lemma minmax_bounds (v lo hi : Q) :
  lo <= hi -> lo <= minmax v lo hi /\ minmax v lo hi <= hi.
Proof.
  intro H. unfold minmax.
  destruct (max_cases v lo) as [[H1 E1] | [H1 E1]];
    destruct (min_cases (Math.max v lo) hi) as [[H2 E2] | [H2 E2]];
    rewrite E2; lra.
Qed.

(** Inside the range [minmax] is the identity. *)
Lemma minmax_inside (v lo hi : Q) :
  lo <= v -> v <= hi -> minmax v lo hi == v.
Proof.
  intros H1 H2. unfold minmax.
  destruct (max_cases v lo) as [[H3 E1] | [H3 E1]];
    destruct (min_cases (Math.max v lo) hi) as [[H4 E2] | [H4 E2]];
    rewrite E2; lra.
Qed.

Lemma minmax_above (v lo hi : Q) :
  lo <= hi -> hi <= v -> minmax v lo hi == hi.
Proof.
  intros H1 H2. unfold minmax.
  destruct (max_cases v lo) as [[H3 E1] | [H3 E1]];
    destruct (min_cases (Math.max v lo) hi) as [[H4 E2] | [H4 E2]];
    rewrite E2; lra.
Qed.

Lemma minmax_below (v lo hi : Q) :
  lo <= hi -> v <= lo -> minmax v lo hi == lo.
Proof.
  intros H1 H2. unfold minmax.
  destruct (max_cases v lo) as [[H3 E1] | [H3 E1]];
    destruct (min_cases (Math.max v lo) hi) as [[H4 E2] | [H4 E2]];
    rewrite E2; lra.
Qed.

#[export] Instance minmax_compat : Proper (Qeq ==> Qeq ==> Qeq ==> Qeq) minmax.
Proof.
  intros a a' Ha b b' Hb c c' Hc. unfold minmax, Math.min, Math.max.
  rewrite Ha, Hb, Hc. reflexivity.
Qed.


(** ** The clamp of [translateX] *)

Lemma translateX_bounds (p : Props) (drawerWidth touchX translationX : Q)
      (gestureState : GestureState) :
  0 <= drawerWidth ->
  match drawerPosition p with
  | Left =>
      - drawerWidth <= translateX p drawerWidth touchX translationX gestureState
      /\ translateX p drawerWidth touchX translationX gestureState <= 0
  | Right =>
      dim_width (dimensions p) - drawerWidth
        <= translateX p drawerWidth touchX translationX gestureState
      /\ translateX p drawerWidth touchX translationX gestureState
           <= dim_width (dimensions p)
  end.
Proof.
  intro Hw. unfold translateX.
  destruct (drawerPosition p); apply minmax_bounds; lra.
Qed.

(** C1.  Whatever the shared values hold (any touch position, any translation
    of a gesture, any value a spring seeded with any velocity has reached),
    the derived [translateX] of a drawer of width [drawerWidth >= 0] lies in
    [[-drawerWidth, 0]] when the drawer is on the left and in
    [[dimensions.width - drawerWidth, dimensions.width]] when it is on the
    right; this holds in every world, hence after every event. *)
Theorem translateX_clamped (p : Props) (drawerWidth : Q) (w : World) :
  0 <= drawerWidth ->
  match drawerPosition p with
  | Left =>
      - drawerWidth <= translateX_value p drawerWidth w
      /\ translateX_value p drawerWidth w <= 0
  | Right =>
      dim_width (dimensions p) - drawerWidth <= translateX_value p drawerWidth w
      /\ translateX_value p drawerWidth w <= dim_width (dimensions p)
  end.
Proof.
  intro Hw. unfold translateX_value. apply translateX_bounds. exact Hw.
Qed.

(** A gesture dragged 5000 px at 90000 px/s on the example's left drawer. *)
Lemma translateX_clamped_witness :
  let p := example_props Left front false in
  let w := run p 300 [SpringRest; OnStart (pan 10 0 0 ACTIVE);
                      OnActive (pan 5010 5000 90000 ACTIVE)] (mount p 300) in
  - (300) <= translateX_value p 300 w /\ translateX_value p 300 w <= 0.
Proof.
  intros p w. apply (translateX_clamped p 300 w). discriminate.
Defined.

(** ** The decision at the end of a gesture *)

(** The rule [nextOpen] follows, for every sample and every threshold. *)
Lemma nextOpen_rule (p : Props) (t v : Q) :
  nextOpen p t v =
  if (gtb (Math.abs t) SWIPE_DISTANCE_MINIMUM
      && gtb (Math.abs t) (swipeVelocityThreshold p))
     || gtb (Math.abs t) (swipeDistanceThreshold p)
  then match drawerPosition p with
       | Left => gtb (if eqb v 0 then t else v) 0
       | Right => ltb (if eqb v 0 then t else v) 0
       end
  else open p.
Proof. reflexivity. Qed.

(** The two guards agree once the distance threshold is at least the minimum
    swipe distance. *)
Lemma guards_agree (a vt dt : Q) :
  SWIPE_DISTANCE_MINIMUM <= dt ->
  (gtb a SWIPE_DISTANCE_MINIMUM && gtb a vt) || gtb a dt
  = gtb a SWIPE_DISTANCE_MINIMUM && (gtb a vt || gtb a dt).
Proof.
  intro H.
  destruct (gtb a SWIPE_DISTANCE_MINIMUM) eqn:E1; [reflexivity |].
  destruct (gtb a dt) eqn:E2; [| destruct (gtb a vt); reflexivity].
  apply gtb_false in E1. apply gtb_true in E2. exfalso. lra.
Qed.

(** C2, as amended.  When [swipeDistanceThreshold] is at least the minimum
    swipe distance (5), [onEnd] decides by the rule of the specification: with
    [|translationX| > 5] and [|translationX|] above the velocity threshold or
    the distance threshold, a left drawer opens iff the effective speed
    ([velocityX] if not zero, else [translationX]) is positive and a right
    drawer iff it is negative; otherwise the target is the [open] prop.  A
    sample with [translationX = 0] and [velocityX = 0] keeps the [open] prop. *)
Theorem nextOpen_follows_spec (p : Props) (t v : Q) :
  SWIPE_DISTANCE_MINIMUM <= swipeDistanceThreshold p ->
  nextOpen p t v = nextOpen_spec p t v
  /\ nextOpen p 0 0 = open p.
Proof.
  intro H. split.
  - unfold nextOpen, nextOpen_spec. rewrite (guards_agree _ _ _ H). reflexivity.
  - unfold nextOpen.
    replace (gtb (Math.abs 0) (swipeDistanceThreshold p)) with false.
    + reflexivity.
    + symmetry. apply gtb_false. unfold SWIPE_DISTANCE_MINIMUM in H.
      change (Math.abs 0) with 0. lra.
Qed.

(** The swipe decisions of the specification's example: 80 px opens, -80 px
    closes, 10 px keeps the intent. *)
Lemma nextOpen_follows_spec_witness :
  let p := example_props Left front false in
  (nextOpen p 80 0 = nextOpen_spec p 80 0 /\ nextOpen p 0 0 = open p)
  /\ nextOpen p 80 0 = true
  /\ nextOpen p (-80) 0 = false
  /\ nextOpen p 10 0 = false.
Proof.
  intro p. split.
  - apply (nextOpen_follows_spec p 80 0). discriminate.
  - repeat split; reflexivity.
Defined.

(** C2, as stated, fails: with [swipeDistanceThreshold = 2] a swipe of 3 px
    is below the minimum distance, so the specification keeps the drawer
    closed, while [onEnd] opens it. *)
Lemma nextOpen_below_minimum :
  let p :=
    {| open := false; gestureEnabled := true; swipeEnabled := true;
       drawerPosition := Left; drawerType := front;
       keyboardDismissMode := on_drag; swipeEdgeWidth := 32;
       swipeDistanceThreshold := 2; swipeVelocityThreshold := 500;
       hideStatusBarOnOpen := false;
       drawerStyle := Some {| style_width := Some (WNumber 300) |};
       gestureHandlerProps := None;
       dimensions := {| dim_width := 400; dim_height := 800 |};
       Platform_OS := ios |} in
  nextOpen p 3 0 = true /\ nextOpen_spec p 3 0 = false
  /\ nextOpen p 3 0 <> nextOpen_spec p 3 0.
Proof.
  intro p. repeat split; try reflexivity. discriminate.
Qed.

(** ** The overlay *)

(** C6.  The overlay's opacity is the progress itself, whatever its value;
    its [zIndex] is -1 (behind) exactly when [progress <= 0.05] and 0 (in
    front) exactly when [progress > 0.05]; at 0.05 it is behind. *)
Theorem Overlay_style (progress_value : Q) :
  opacity (Overlay_animatedStyle progress_value) = progress_value
  /\ (zIndex (Overlay_animatedStyle progress_value) = (-1)%Z
      <-> progress_value <= 5 # 100)
  /\ (zIndex (Overlay_animatedStyle progress_value) = 0%Z
      <-> 5 # 100 < progress_value)
  /\ zIndex (Overlay_animatedStyle (5 # 100)) = (-1)%Z
  /\ zIndex (Overlay_animatedStyle (4 # 100)) = (-1)%Z
  /\ zIndex (Overlay_animatedStyle (6 # 100)) = 0%Z.
Proof.
  split; [reflexivity |].
  unfold Overlay_animatedStyle, PROGRESS_EPSILON; simpl zIndex.
  destruct (gtb progress_value (5 # 100)) eqn:E.
  - apply gtb_true in E. repeat split; try reflexivity; try discriminate; intros; lra.
  - apply gtb_false in E. repeat split; try reflexivity; try discriminate; intros; lra.
Qed.

(** ** The width of the drawer *)

Lemma endsWith_percent (s : string) : endsWith (s ++ "%") "%" = true.
Proof.
  induction s as [| c s IH]; [reflexivity |].
  change (endsWith (String c s ++ "%") "%")
    with (if String.eqb (String c (s ++ "%")) "%" then true
          else endsWith (s ++ "%") "%").
  rewrite IH. destruct (String.eqb _ _); reflexivity.
Qed.

Lemma replace_percent_end_app (s : string) : replace_percent_end (s ++ "%") = s.
Proof.
  induction s as [| c s IH]; [reflexivity |].
  destruct s as [| d s'].
  - reflexivity.
  - change (String c (replace_percent_end (String d s' ++ "%")) = String c (String d s')).
    rewrite IH. reflexivity.
Qed.

(** X1.  A string that does not end in a percent sign is no width at all. *)
Lemma getDrawerWidth_other_string (Number : string -> JSNumber) (p : Props) (s : string) :
  declared_width p = Some (WString s) -> endsWith s "%" = false ->
  getDrawerWidth Number p = 0.
Proof.
  unfold declared_width, getDrawerWidth. intros Hs He.
  destruct (drawerStyle p) as [st |]; [| discriminate].
  rewrite Hs, He. reflexivity.
Qed.

(** C8.  [getDrawerWidth] always returns a width.  With [Number "80"] being 80:
    a missing or undefined style width gives 80% of the viewport width; a
    numeric width is returned as it is; a string [s%] whose numeric part [s]
    converts to the finite number [q] gives [dimensions.width * (q / 100)];
    a string [s%] whose numeric part converts to [NaN] or to an infinity
    gives 0. *)
Theorem getDrawerWidth_resolution (Number : string -> JSNumber) (p : Props) :
  Number "80"%string = Finite 80 ->
  (declared_width p = None ->
   getDrawerWidth Number p = dim_width (dimensions p) * (80 / 100))
  /\ (forall n, declared_width p = Some (WNumber n) ->
                getDrawerWidth Number p = n)
  /\ (forall s q, declared_width p = Some (WString (s ++ "%")) ->
                  Number s = Finite q ->
                  getDrawerWidth Number p = dim_width (dimensions p) * (q / 100))
  /\ (forall s, declared_width p = Some (WString (s ++ "%")) ->
                Number.isFinite (Number s) = false ->
                getDrawerWidth Number p = 0).
Proof.
  intro H80. unfold declared_width, getDrawerWidth.
  repeat split.
  - intro Hd.
    assert (E : match drawerStyle p with
                | Some st => match style_width st with
                             | Some w => w
                             | None => WString DEFAULT_DRAWER_WIDTH
                             end
                | None => WString DEFAULT_DRAWER_WIDTH
                end = WString DEFAULT_DRAWER_WIDTH).
    { destruct (drawerStyle p) as [st |]; [rewrite Hd |]; reflexivity. }
    rewrite E. change DEFAULT_DRAWER_WIDTH with ("80" ++ "%")%string.
    rewrite endsWith_percent, replace_percent_end_app, H80. reflexivity.
  - intros n Hd. destruct (drawerStyle p) as [st |]; [| discriminate].
    rewrite Hd. reflexivity.
  - intros s q Hd Hq. destruct (drawerStyle p) as [st |]; [| discriminate].
    rewrite Hd, endsWith_percent, replace_percent_end_app, Hq. reflexivity.
  - intros s Hd Hq. destruct (drawerStyle p) as [st |]; [| discriminate].
    rewrite Hd, endsWith_percent, replace_percent_end_app.
    destruct (Number s); [discriminate | reflexivity ..].
Qed.

(** On the 400 px viewport: no style gives 320, ["50%"] gives 200, ["abc%"]
    and ["Infinity%"] give 0, 300 gives 300. *)
Lemma getDrawerWidth_resolution_witness :
  let p := example_props Left front false in
  let styled w := with_drawerStyle (Some {| style_width := Some w |}) p in
  getDrawerWidth Number_digits (with_drawerStyle None p) == 320
  /\ getDrawerWidth Number_digits (styled (WNumber 300)) == 300
  /\ getDrawerWidth Number_digits (styled (WString "50%")) == 200
  /\ getDrawerWidth Number_digits (styled (WString "abc%")) == 0
  /\ getDrawerWidth Number_digits (styled (WString "Infinity%")) == 0.
Proof.
  intros p styled.
  split; [| split; [| split; [| split]]].
  - rewrite (proj1 (getDrawerWidth_resolution Number_digits
                      (with_drawerStyle None p) eq_refl) eq_refl).
    reflexivity.
  - rewrite (proj1 (proj2 (getDrawerWidth_resolution Number_digits
                             (styled (WNumber 300)) eq_refl)) 300 eq_refl).
    reflexivity.
  - rewrite (proj1 (proj2 (proj2 (getDrawerWidth_resolution Number_digits
                                    (styled (WString "50%")) eq_refl)))
               "50"%string 50 eq_refl eq_refl).
    reflexivity.
  - rewrite (proj2 (proj2 (proj2 (getDrawerWidth_resolution Number_digits
                                    (styled (WString "abc%")) eq_refl)))
               "abc"%string eq_refl eq_refl).
    reflexivity.
  - rewrite (proj2 (proj2 (proj2 (getDrawerWidth_resolution Number_digits
                                    (styled (WString "Infinity%")) eq_refl)))
               "Infinity"%string eq_refl eq_refl).
    reflexivity.
Defined.

(** ** Progress *)

#[export] Instance Math_abs_compat : Proper (Qeq ==> Qeq) Math.abs.
Proof. intros a b H. unfold Math.abs. rewrite H. reflexivity. Qed.

#[export] Instance Math_min_compat : Proper (Qeq ==> Qeq ==> Qeq) Math.min.
Proof. intros a b H c d H'. unfold Math.min. rewrite H, H'. reflexivity. Qed.

#[export] Instance progress_compat (drawerWidth : Q) :
  Proper (Qeq ==> Qeq) (progress drawerWidth).
Proof. intros a b H. unfold progress. rewrite H. reflexivity. Qed.

Lemma progress_left_range (drawerWidth tx : Q) :
  0 < drawerWidth -> - drawerWidth <= tx -> tx <= 0 ->
  0 <= progress drawerWidth tx /\ progress drawerWidth tx <= 1.
Proof.
  intros Hw Hlo Hhi. unfold progress.
  destruct (abs_cases tx) as [[H E] | [H E]]; rewrite E; split.
  - apply Qle_shift_div_l; [exact Hw | lra].
  - apply Qle_shift_div_r; [exact Hw | lra].
  - apply Qle_shift_div_l; [exact Hw | lra].
  - apply Qle_shift_div_r; [exact Hw | lra].
Qed.

(** C10.  For a drawer of positive width: on the left, [progress] lies in
    [[0, 1]] in every world; on the right, with the viewport wider than the
    drawer, [progress] is [(2 * drawerWidth - dimensions.width) / drawerWidth],
    below 1, at the open offset [dimensions.width - drawerWidth], and
    [(drawerWidth - dimensions.width) / drawerWidth], below 0, at the closed
    offset [dimensions.width]. *)
Theorem progress_normalized_on_the_left_only (p : Props) (drawerWidth : Q) :
  0 < drawerWidth ->
  (drawerPosition p = Left ->
   forall w, 0 <= progress_value p drawerWidth w
             /\ progress_value p drawerWidth w <= 1)
  /\ (drawerPosition p = Right ->
      drawerWidth < dim_width (dimensions p) ->
      getDrawerTranslationX p drawerWidth true
        = dim_width (dimensions p) - drawerWidth
      /\ progress drawerWidth (getDrawerTranslationX p drawerWidth true)
           == (2 * drawerWidth - dim_width (dimensions p)) / drawerWidth
      /\ progress drawerWidth (getDrawerTranslationX p drawerWidth true) < 1
      /\ getDrawerTranslationX p drawerWidth false = dim_width (dimensions p)
      /\ progress drawerWidth (getDrawerTranslationX p drawerWidth false)
           == (drawerWidth - dim_width (dimensions p)) / drawerWidth
      /\ progress drawerWidth (getDrawerTranslationX p drawerWidth false) < 0).
Proof.
  intro Hw. split.
  - intros Hp w. unfold progress_value, translateX_value.
    pose proof (translateX_bounds p drawerWidth (touchX w)
                  (value (translationX w)) (gestureState w)
                  (Qlt_le_weak _ _ Hw)) as B.
    rewrite Hp in B. destruct B as [B1 B2].
    apply progress_left_range; assumption.
  - intros Hp Hv. unfold getDrawerTranslationX. rewrite Hp.
    set (vw := dim_width (dimensions p)) in *.
    assert (Eo : Math.abs (vw - drawerWidth) == vw - drawerWidth).
    { destruct (abs_cases (vw - drawerWidth)) as [[H E] | [H E]]; [exact E | lra]. }
    assert (Ec : Math.abs vw == vw).
    { destruct (abs_cases vw) as [[H E] | [H E]]; [exact E | lra]. }
    assert (Po : progress drawerWidth (vw - drawerWidth)
                 == (2 * drawerWidth - vw) / drawerWidth).
    { unfold progress. rewrite Eo. apply Qdiv_comp; [ring | reflexivity]. }
    assert (Pc : progress drawerWidth vw == (drawerWidth - vw) / drawerWidth).
    { unfold progress. rewrite Ec. reflexivity. }
    split; [reflexivity |]. split; [exact Po |]. split.
    + rewrite Po. apply Qlt_shift_div_r; [exact Hw | lra].
    + split; [reflexivity |]. split; [exact Pc |].
      rewrite Pc. apply Qlt_shift_div_r; [exact Hw | lra].
Qed.

(** The example's right drawer, 300 wide on a 400 px viewport: 2/3 when open,
    -1/3 when closed. *)
Lemma progress_normalized_on_the_left_only_witness :
  let p := example_props Right front true in
  progress 300 (getDrawerTranslationX p 300 true) == 2 # 3
  /\ progress 300 (getDrawerTranslationX p 300 false) == - (1 # 3)
  /\ progress 300 (getDrawerTranslationX p 300 true) < 1
  /\ progress 300 (getDrawerTranslationX p 300 false) < 0.
Proof.
  intro p.
  destruct (proj2 (progress_normalized_on_the_left_only p 300 eq_refl)
              eq_refl eq_refl)
    as (_ & Po & Lo & _ & Pc & Lc).
  split; [rewrite Po; reflexivity |].
  split; [rewrite Pc; reflexivity |].
  split; assumption.
Defined.

(** ** What the reaction and the handlers leave alone *)

Lemma eqb_refl (a : Q) : eqb a a = true.
Proof. apply eqb_true. reflexivity. Qed.

Lemma eqb_compat_r (a b b' : Q) : b == b' -> eqb a b = eqb a b'.
Proof.
  intro H. destruct (eqb a b') eqn:E.
  - apply eqb_true. apply eqb_true in E. rewrite H. exact E.
  - apply eqb_false. apply eqb_false in E. rewrite H. exact E.
Qed.

Lemma eqb_compat_l (a a' b : Q) : a == a' -> eqb a b = eqb a' b.
Proof.
  intro H. destruct (eqb a' b) eqn:E.
  - apply eqb_true. apply eqb_true in E. rewrite H. exact E.
  - apply eqb_false. apply eqb_false in E. rewrite H. exact E.
Qed.

Section Frames.
Variable p : Props.
Variable drawerWidth : Q.

(** The reaction only ever appends to the log of [setOpen]. *)
Lemma reaction_shared (e : Event) (a b : World) :
  touchX (after_writes p drawerWidth e a b) = touchX b
  /\ translationX (after_writes p drawerWidth e a b) = translationX b
  /\ gestureState (after_writes p drawerWidth e a b) = gestureState b
  /\ ctx_startX (after_writes p drawerWidth e a b) = ctx_startX b
  /\ mounted (after_writes p drawerWidth e a b) = mounted b.
Proof.
  unfold after_writes, reaction, reaction_react.
  destruct (writes_shared_value e a); [| repeat split].
  destruct (reaction_prepare _ _ _) as [o |]; repeat split.
Qed.

Lemma reaction_interaction (e : Event) (a b : World) :
  interactionHandleRef (after_writes p drawerWidth e a b) = interactionHandleRef b
  /\ InteractionManager (after_writes p drawerWidth e a b) = InteractionManager b.
Proof.
  unfold after_writes, reaction, reaction_react.
  destruct (writes_shared_value e a); [| repeat split].
  destruct (reaction_prepare _ _ _) as [o |]; repeat split.
Qed.

Lemma reaction_translateX (e : Event) (a b : World) :
  translateX_value p drawerWidth (after_writes p drawerWidth e a b)
  = translateX_value p drawerWidth b.
Proof.
  destruct (reaction_shared e a b) as (E1 & E2 & E3 & _).
  unfold translateX_value. rewrite E1, E2, E3. reflexivity.
Qed.

(** The calls the reaction makes after an event: none when the handler wrote
    no shared value, and otherwise what [reaction_prepare] finds at the new
    [translateX]. *)
Lemma reaction_calls (e : Event) (a b : World) :
  setOpen_calls (after_writes p drawerWidth e a b)
  = setOpen_calls b
    ++ (if writes_shared_value e a
        then reported p drawerWidth (translateX_value p drawerWidth b)
        else []).
Proof.
  unfold after_writes, reaction, reaction_react, reported.
  destruct (writes_shared_value e a); [| symmetry; apply app_nil_r].
  destruct (reaction_prepare _ _ _) as [o |]; [reflexivity |].
  symmetry; apply app_nil_r.
Qed.

(** No handler but the Escape listener calls [setOpen] itself. *)
Lemma handle_calls (e : Event) (w : World) :
  is_escape p e = false ->
  setOpen_calls (handle p drawerWidth e w) = setOpen_calls w.
Proof.
  intro H. destruct e as [o | ev | ev | ev | v | | key |]; simpl.
  - reflexivity.
  - unfold onStart, onGestureStart, hideStatusBar, hideKeyboard.
    destruct (hideStatusBarOnOpen p), (keyboardDismissMode p); reflexivity.
  - reflexivity.
  - unfold onEnd, onGestureEnd, endInteraction. simpl.
    destruct (interactionHandleRef w); reflexivity.
  - destruct (animation (translationX w)); reflexivity.
  - destruct (animation (translationX w)); reflexivity.
  - unfold is_escape in H. unfold handleEscape.
    destruct (Platform_OS p); try reflexivity. rewrite H. reflexivity.
  - unfold hideStatusBar. destruct (hideStatusBarOnOpen p); reflexivity.
Qed.

Lemma run_app (es es' : list Event) (w : World) :
  run p drawerWidth (es ++ es') w
  = run p drawerWidth es' (run p drawerWidth es w).
Proof. unfold run. apply fold_left_app. Qed.

(** Nothing happens to a component that is not mounted. *)
Lemma run_unmounted (es : list Event) (w : World) :
  mounted w = false -> run p drawerWidth es w = w.
Proof.
  intro H. induction es as [| e es IH]; [reflexivity |].
  change (run p drawerWidth (e :: es) w)
    with (run p drawerWidth es (step p drawerWidth w e)).
  unfold step. rewrite H. exact IH.
Qed.
End Frames.

(** ** The front drawer lags behind a touch that starts outside it *)

(** What [translateX] is once [onStart] and [onActive] have run. *)
Lemma translateX_after_onActive (p : Props) (drawerWidth : Q) (w : World)
      (ev0 ev : PanEvent) :
  mounted w = true ->
  translateX_value p drawerWidth
    (run p drawerWidth [OnStart ev0; OnActive ev] w)
  = translateX p drawerWidth (ev_x ev)
      (value (translationX w) + ev_translationX ev) (ev_state ev).
Proof.
  intro Hm. unfold run. simpl fold_left.
  set (w1 := step p drawerWidth w (OnStart ev0)).
  assert (H1 : mounted w1 = true /\ ctx_startX w1 = value (translationX w)).
  { unfold w1, step. rewrite Hm.
    destruct (reaction_shared p drawerWidth (OnStart ev0) w (handle p drawerWidth (OnStart ev0) w))
      as (_ & _ & _ & E4 & E5).
    rewrite E4, E5. simpl handle.
    unfold onStart, onGestureStart, hideStatusBar, hideKeyboard.
    destruct (hideStatusBarOnOpen p), (keyboardDismissMode p); simpl; auto. }
  destruct H1 as [Hm1 Hs1].
  unfold step. rewrite Hm1. rewrite reaction_translateX.
  unfold translateX_value. simpl. rewrite Hs1. reflexivity.
Qed.

(** C4, as amended.  A front drawer on the left, 300 wide and open (offset
    0); a gesture starts at [x = 350], outside the drawer, and has moved by
    [t].  The drawer stays at 0 as long as [t >= -50] (the touch has not
    reached the drawer's edge at 300), follows the touch one to one, at
    [t + 50], for [-350 <= t <= -50], and stops at -300 below that.  For every
    front drawer with an active gesture, [translateX] is the clamp of
    [translationX] minus [min(translationX - touchX + drawerWidth, 0)] on the
    left and minus
    [min(translationX - touchX, dimensions.width - drawerWidth)] on the
    right. *)
Theorem front_drawer_lag (p : Props) (w : World) (ev0 : PanEvent) (t v : Q) :
  drawerType p = front ->
  drawerPosition p = Left ->
  mounted w = true ->
  value (translationX w) == 0 ->
  let w' := run p 300 [OnStart ev0; OnActive (pan (350 + t) t v ACTIVE)] w in
  (- (50) <= t -> translateX_value p 300 w' == 0)
  /\ (- (350) <= t -> t <= - (50) -> translateX_value p 300 w' == t + 50)
  /\ (t <= - (350) -> translateX_value p 300 w' == - (300))
  /\ (forall (q : Props) (drawerWidth touchX translationX : Q),
        drawerType q = front ->
        translateX q drawerWidth touchX translationX ACTIVE
        = match drawerPosition q with
          | Left =>
              minmax (translationX
                      - Math.min (translationX - touchX + drawerWidth) 0)
                     (- drawerWidth) 0
          | Right =>
              minmax (translationX
                      - Math.min (translationX - touchX)
                                 (dim_width (dimensions q) - drawerWidth))
                     (dim_width (dimensions q) - drawerWidth)
                     (dim_width (dimensions q))
          end).
Proof.
  intros Ht Hp Hm H0 w'.
  assert (E : translateX_value p 300 w' == minmax (t + 50) (- (300)) 0).
  { unfold w'. rewrite translateX_after_onActive by exact Hm.
    unfold translateX, touchDistance. rewrite Ht, Hp. simpl.
    destruct (min_cases (value (translationX w) + t - (350 + t) + 300) 0)
      as [[H E] | [H E]]; [| exfalso; lra].
    rewrite E. apply minmax_compat; lra. }
  split; [| split; [| split]].
  - intro H. rewrite E. apply minmax_above; lra.
  - intros H1 H2. rewrite E. apply minmax_inside; lra.
  - intro H. rewrite E. apply minmax_below; lra.
  - intros q dw tX trX Hq. unfold translateX, touchDistance. rewrite Hq.
    destruct (drawerPosition q); reflexivity.
Qed.

(** The example's open drawer: 40 px to the left it has not moved, 120 px to
    the left it is at -70. *)
Lemma front_drawer_lag_witness :
  let p := example_props Left front true in
  let w := run p 300 [SpringRest] (mount p 300) in
  translateX_value p 300
    (run p 300 [OnStart (pan 350 0 0 ACTIVE);
                OnActive (pan (350 + - (40)) (- (40)) 0 ACTIVE)] w) == 0
  /\ translateX_value p 300
       (run p 300 [OnStart (pan 350 0 0 ACTIVE);
                   OnActive (pan (350 + - (120)) (- (120)) 0 ACTIVE)] w)
     == - (70).
Proof.
  intros p w. split.
  - apply (proj1 (front_drawer_lag p w (pan 350 0 0 ACTIVE) (- (40)) 0
                    eq_refl eq_refl eq_refl eq_refl)).
    discriminate.
  - rewrite (proj1 (proj2 (front_drawer_lag p w (pan 350 0 0 ACTIVE) (- (120)) 0
                             eq_refl eq_refl eq_refl eq_refl))).
    + reflexivity.
    + discriminate.
    + discriminate.
Defined.

(** C4, as stated, fails: with the drawer closed at -300 and the gesture
    started at [x = 350], a translation of 10 px, well short of 50, already
    has the drawer at 0, fully open. *)
Lemma closed_front_drawer_jumps :
  let p := example_props Left front false in
  let w := run p 300 [SpringRest] (mount p 300) in
  let w' := run p 300 [OnStart (pan 350 0 0 ACTIVE);
                       OnActive (pan 360 10 0 ACTIVE)] w in
  translateX_value p 300 w == - (300)
  /\ translateX_value p 300 w' == 0
  /\ ~ translateX_value p 300 w' == translateX_value p 300 w.
Proof.
  intros p w w'. repeat split; try reflexivity. vm_compute. discriminate.
Qed.

(** ** Requests to open *)

Section Requests.
Variable p : Props.
Variable drawerWidth : Q.

Lemma toggleDrawer_idempotent (o : bool) (v : option Q) (w : World) :
  toggleDrawer p drawerWidth o v (toggleDrawer p drawerWidth o v w)
  = toggleDrawer p drawerWidth o v w.
Proof. reflexivity. Qed.

(** Outside an active gesture [translateX] does not read [touchX]. *)
Lemma translateX_idle (tX tX' trX : Q) (g : GestureState) :
  g <> ACTIVE ->
  translateX p drawerWidth tX trX g = translateX p drawerWidth tX' trX g.
Proof.
  intro Hg. unfold translateX, touchDistance.
  replace (GestureState_eqb g ACTIVE) with false.
  - rewrite andb_false_r. reflexivity.
  - destruct g; try reflexivity. contradiction Hg. reflexivity.
Qed.

(** The target, clamped, is the target. *)
Lemma translateX_at_target (o : bool) (tX : Q) (g : GestureState) :
  0 <= drawerWidth -> g <> ACTIVE ->
  translateX p drawerWidth tX (getDrawerTranslationX p drawerWidth o) g
  == getDrawerTranslationX p drawerWidth o.
Proof.
  intros Hw Hg. unfold translateX, touchDistance, getDrawerTranslationX.
  replace (GestureState_eqb g ACTIVE) with false
    by (destruct g; try reflexivity; contradiction Hg; reflexivity).
  rewrite andb_false_r.
  destruct (drawerPosition p), o; rewrite minmax_inside by lra; lra.
Qed.

End Requests.

(** ** The interaction handle *)

Lemma filter_fresh (k : nat) (l : list nat) :
  (forall h, In h l -> (h < k)%nat) ->
  List.filter (fun h' => negb (Nat.eqb h' k)) l = l.
Proof.
  induction l as [| h l IH]; intro H; [reflexivity |].
  simpl. assert (Hh : (h < k)%nat) by (apply H; left; reflexivity).
  replace (Nat.eqb h k) with false by (symmetry; apply Nat.eqb_neq; lia).
  simpl. f_equal. apply IH. intros h' Hin. apply H. right. exact Hin.
Qed.

(** A gesture that starts and ends: the handle created at the start is the
    one cleared at the end, and the set of held handles is what it was. *)
Lemma interaction_paired (p : Props) (drawerWidth : Q) (w : World) (ev0 ev1 : PanEvent) :
  mounted w = true ->
  (forall h, In h (handles (InteractionManager w)) ->
             (h < nextHandle (InteractionManager w))%nat) ->
  let w1 := step p drawerWidth w (OnStart ev0) in
  let w2 := step p drawerWidth w1 (OnEnd ev1) in
  interactionHandleRef w1 = Some (nextHandle (InteractionManager w))
  /\ handles (InteractionManager w1)
     = nextHandle (InteractionManager w) :: handles (InteractionManager w)
  /\ interactionHandleRef w2 = None
  /\ handles (InteractionManager w2) = handles (InteractionManager w).
Proof.
  intros Hm Hfresh w1 w2.
  assert (H1 : interactionHandleRef w1 = Some (nextHandle (InteractionManager w))
               /\ InteractionManager w1
                  = {| handles := nextHandle (InteractionManager w)
                                  :: handles (InteractionManager w);
                       nextHandle := S (nextHandle (InteractionManager w)) |}
               /\ mounted w1 = true).
  { unfold w1, step. rewrite Hm.
    destruct (reaction_interaction p drawerWidth (OnStart ev0) w (handle p drawerWidth (OnStart ev0) w))
      as [E1 E2].
    destruct (reaction_shared p drawerWidth (OnStart ev0) w (handle p drawerWidth (OnStart ev0) w))
      as (_ & _ & _ & _ & E5).
    rewrite E1, E2, E5. simpl handle.
    unfold onStart, onGestureStart, hideStatusBar, hideKeyboard.
    destruct (hideStatusBarOnOpen p), (keyboardDismissMode p); simpl; auto. }
  destruct H1 as (R1 & M1 & Hm1).
  split; [exact R1 |]. split; [rewrite M1; reflexivity |].
  assert (H2 : interactionHandleRef w2 = None
               /\ handles (InteractionManager w2)
                  = List.filter
                      (fun h' => negb (Nat.eqb h' (nextHandle (InteractionManager w))))
                      (nextHandle (InteractionManager w)
                       :: handles (InteractionManager w))).
  { unfold w2, step. rewrite Hm1.
    destruct (reaction_interaction p drawerWidth (OnEnd ev1) w1 (handle p drawerWidth (OnEnd ev1) w1))
      as [E1 E2].
    rewrite E1, E2. simpl handle.
    unfold onEnd, onGestureEnd, endInteraction. simpl.
    rewrite R1, M1. simpl. auto. }
  destruct H2 as [R2 M2]. split; [exact R2 |].
  rewrite M2. simpl. rewrite Nat.eqb_refl. simpl.
  apply filter_fresh. exact Hfresh.
Qed.

(** C9, on the code.  The drawer is unmounted while a gesture is in progress:
    the handle created by [onStart] is still held after the cleanups have
    run, and no later event releases it. *)
Theorem interaction_handle_survives_unmount :
  let p := example_props Left front false in
  let w := run p 300 [SpringRest; OnStart (pan 10 0 0 ACTIVE);
                      OnActive (pan 40 30 100 ACTIVE); Unmount] (mount p 300) in
  mounted w = false
  /\ interactionHandleRef w = Some 1%nat
  /\ handles (InteractionManager w) = [1%nat]
  /\ forall es, handles (InteractionManager (run p 300 es w)) = [1%nat].
Proof.
  intros p w.
  assert (Hm : mounted w = false) by reflexivity.
  repeat split.
  intro es. rewrite (run_unmounted p 300 es w Hm). reflexivity.
Qed.

(** ** More on the width *)

(** A string that does not end in a percent sign: "300px" is no width. *)
Lemma getDrawerWidth_other_string_witness :
  getDrawerWidth Number_digits
    (with_drawerStyle (Some {| style_width := Some (WString "300px") |})
       (example_props Left front false)) = 0.
Proof.
  apply (getDrawerWidth_other_string Number_digits _ "300px"); reflexivity.
Defined.

(** X2.  The width is not negative unless something negative went in: with a
    viewport width [>= 0], a numeric style width [>= 0] or a percentage whose
    numeric part does not convert to a negative number, [getDrawerWidth] is
    [>= 0], and then the clamp of [translateX] has a proper range. *)
Theorem getDrawerWidth_nonnegative (Number : string -> JSNumber) (p : Props) :
  Number "80"%string = Finite 80 ->
  0 <= dim_width (dimensions p) ->
  match declared_width p with
  | Some (WNumber n) => 0 <= n
  | Some (WString s) =>
      match Number (replace_percent_end s) with
      | Finite q => 0 <= q
      | _ => True
      end
  | None => True
  end ->
  0 <= getDrawerWidth Number p
  /\ forall w,
       match drawerPosition p with
       | Left =>
           - getDrawerWidth Number p <= translateX_value p (getDrawerWidth Number p) w
           /\ translateX_value p (getDrawerWidth Number p) w <= 0
       | Right =>
           dim_width (dimensions p) - getDrawerWidth Number p
             <= translateX_value p (getDrawerWidth Number p) w
           /\ translateX_value p (getDrawerWidth Number p) w
                <= dim_width (dimensions p)
       end.
Proof.
  intros H80 Hv Hd.
  assert (Hw : 0 <= getDrawerWidth Number p).
  { assert (Hmul : forall q, 0 <= q -> 0 <= dim_width (dimensions p) * (q / 100)).
    { intros q Hq. apply Qmult_le_0_compat; [exact Hv |].
      apply Qle_shift_div_l; [reflexivity | lra]. }
    unfold declared_width in Hd. unfold getDrawerWidth.
    destruct (drawerStyle p) as [st |].
    - destruct (style_width st) as [[n | s] |].
      + exact Hd.
      + destruct (endsWith s "%"); [| lra].
        destruct (Number (replace_percent_end s)); try lra. apply Hmul. exact Hd.
      + simpl. rewrite H80. apply Hmul. discriminate.
    - simpl. rewrite H80. apply Hmul. discriminate. }
  split; [exact Hw |].
  intro w. unfold translateX_value. apply translateX_bounds. exact Hw.
Qed.

Lemma getDrawerWidth_nonnegative_witness :
  let p := with_drawerStyle (Some {| style_width := Some (WString "50%") |})
             (example_props Left front false) in
  0 <= getDrawerWidth Number_digits p.
Proof.
  intro p.
  assert (Hv : 0 <= dim_width (dimensions p)) by discriminate.
  assert (Hd : match declared_width p with
               | Some (WNumber n) => 0 <= n
               | Some (WString s) =>
                   match Number_digits (replace_percent_end s) with
                   | Finite q => 0 <= q
                   | _ => True
                   end
               | None => True
               end) by (simpl; discriminate).
  exact (proj1 (getDrawerWidth_nonnegative Number_digits p eq_refl Hv Hd)).
Defined.

(** ** More on the decision at the end of a gesture *)

Lemma gtb_compat (a a' b b' : Q) : a == a' -> b == b' -> gtb a b = gtb a' b'.
Proof.
  intros Ha Hb. destruct (gtb a' b') eqn:E.
  - apply gtb_true. apply gtb_true in E. lra.
  - apply gtb_false. apply gtb_false in E. lra.
Qed.

(** X3.  A swipe whose distance is within the distance threshold and within either
    the minimum distance or the velocity threshold leaves the target at the
    [open] prop, however fast the finger was: the velocity of the event takes
    no part in the guard. *)
Theorem short_swipe_keeps_intent (p : Props) (t v : Q) :
  Math.abs t <= swipeDistanceThreshold p ->
  Math.abs t <= SWIPE_DISTANCE_MINIMUM \/ Math.abs t <= swipeVelocityThreshold p ->
  nextOpen p t v = open p.
Proof.
  intros Hd Hm. unfold nextOpen.
  apply gtb_false in Hd. rewrite Hd.
  destruct Hm as [Hm | Hm]; apply gtb_false in Hm; rewrite Hm.
  - reflexivity.
  - rewrite andb_false_r. reflexivity.
Qed.

(** 40 px at 3000 px/s on the example's closed drawer: it stays closed. *)
Lemma short_swipe_keeps_intent_witness :
  nextOpen (example_props Left front false) 40 3000 = false.
Proof.
  apply (short_swipe_keeps_intent (example_props Left front false) 40 3000).
  - discriminate.
  - right. discriminate.
Defined.

(** X4.  Past the distance threshold the sign of the velocity decides, whatever the
    direction of the translation: a left drawer opens iff [velocityX > 0], a
    right drawer iff [velocityX < 0]; with [velocityX = 0] the sign of the
    translation decides in the same way. *)
Theorem long_swipe_follows_velocity (p : Props) (t v : Q) :
  swipeDistanceThreshold p < Math.abs t ->
  (~ v == 0 ->
   match drawerPosition p with
   | Left => nextOpen p t v = true <-> 0 < v
   | Right => nextOpen p t v = true <-> v < 0
   end)
  /\ (v == 0 ->
      match drawerPosition p with
      | Left => nextOpen p t v = true <-> 0 < t
      | Right => nextOpen p t v = true <-> t < 0
      end).
Proof.
  intro Hd. unfold nextOpen. apply gtb_true in Hd. rewrite Hd, orb_true_r.
  split; intro Hv.
  - apply eqb_false in Hv. rewrite Hv.
    destruct (drawerPosition p); [apply gtb_true | apply ltb_true].
  - apply eqb_true in Hv. rewrite Hv.
    destruct (drawerPosition p); [apply gtb_true | apply ltb_true].
Qed.

(** Dragged 100 px to the right and flicked back to the left: the left drawer
    closes. *)
Lemma long_swipe_follows_velocity_witness :
  nextOpen (example_props Left front true) 100 (- (200)) = true <-> 0 < - (200).
Proof.
  apply (proj1 (long_swipe_follows_velocity
                  (example_props Left front true) 100 (- (200)) eq_refl)).
  discriminate.
Defined.

(** X5.  Past the distance threshold, with a sample that moves at all, a drawer on
    the left and one on the right take opposite decisions. *)
Theorem left_and_right_mirror (p : Props) (t v : Q) :
  swipeDistanceThreshold p < Math.abs t ->
  ~ (if eqb v 0 then t else v) == 0 ->
  nextOpen (with_drawerPosition Left p) t v
  = negb (nextOpen (with_drawerPosition Right p) t v).
Proof.
  intros Hd Hs. unfold nextOpen. simpl.
  apply gtb_true in Hd. rewrite Hd, orb_true_r.
  set (s := if eqb v 0 then t else v) in *.
  destruct (gtb s 0) eqn:E1; destruct (ltb s 0) eqn:E2; try reflexivity.
  - apply gtb_true in E1. apply ltb_true in E2. exfalso. lra.
  - apply gtb_false in E1. unfold ltb in E2. apply negb_false_iff in E2.
    apply Qle_bool_iff in E2. exfalso. apply Hs. lra.
Qed.

Lemma left_and_right_mirror_witness :
  nextOpen (with_drawerPosition Left (example_props Left front false)) 80 0
  = negb (nextOpen (with_drawerPosition Right (example_props Left front false)) 80 0).
Proof.
  apply (left_and_right_mirror (example_props Left front false) 80 0).
  - reflexivity.
  - discriminate.
Defined.

(** ** The overlay at rest *)

Lemma Overlay_zIndex_front (pv : Q) :
  zIndex (Overlay_animatedStyle pv) = 0%Z <-> PROGRESS_EPSILON < pv.
Proof.
  unfold Overlay_animatedStyle. simpl zIndex.
  destruct (gtb pv PROGRESS_EPSILON) eqn:E.
  - apply gtb_true in E. split; [intros _; exact E | reflexivity].
  - apply gtb_false in E. split; [discriminate | intro H; exfalso; lra].
Qed.

Lemma Overlay_zIndex_behind (pv : Q) :
  zIndex (Overlay_animatedStyle pv) = (-1)%Z <-> pv <= PROGRESS_EPSILON.
Proof.
  unfold Overlay_animatedStyle. simpl zIndex.
  destruct (gtb pv PROGRESS_EPSILON) eqn:E.
  - apply gtb_true in E. split; [discriminate | intro H; exfalso; lra].
  - apply gtb_false in E. split; [intros _; exact E | reflexivity].
Qed.

(** X6.  A left drawer of positive width, outside an active gesture: resting at
    the closed target the progress is 0 and the overlay is transparent and
    behind the scene; resting at the open target the progress is 1 and the
    overlay is in front, where a press reaches it. *)
Theorem overlay_of_left_drawer_at_rest (p : Props) (drawerWidth : Q) (w : World) :
  drawerPosition p = Left ->
  0 < drawerWidth ->
  gestureState w <> ACTIVE ->
  (value (translationX w) == getDrawerTranslationX p drawerWidth false ->
   opacity (Overlay_in p drawerWidth w) == 0
   /\ zIndex (Overlay_in p drawerWidth w) = (-1)%Z)
  /\ (value (translationX w) == getDrawerTranslationX p drawerWidth true ->
      opacity (Overlay_in p drawerWidth w) == 1
      /\ zIndex (Overlay_in p drawerWidth w) = 0%Z).
Proof.
  intros Hp Hw Hg.
  assert (T : forall o,
             value (translationX w) == getDrawerTranslationX p drawerWidth o ->
             translateX_value p drawerWidth w
             == getDrawerTranslationX p drawerWidth o).
  { intros o E. unfold translateX_value.
    rewrite <- (translateX_at_target p drawerWidth o (touchX w) (gestureState w))
      by (try lra; exact Hg).
    unfold translateX, touchDistance.
    replace (GestureState_eqb (gestureState w) ACTIVE) with false
      by (destruct (gestureState w); try reflexivity; contradiction Hg; reflexivity).
    rewrite andb_false_r, Hp. rewrite E. reflexivity. }
  assert (Pc : forall x, x == - drawerWidth -> progress drawerWidth x == 0).
  { intros x E. rewrite E. unfold progress.
    destruct (abs_cases (- drawerWidth)) as [[H A] | [H A]]; [exfalso; lra |].
    rewrite A. field. lra. }
  assert (Po : forall x, x == 0 -> progress drawerWidth x == 1).
  { intros x E. rewrite E. unfold progress.
    change (Math.abs 0) with 0. field. lra. }
  unfold Overlay_in, progress_value.
  split; intro E; apply T in E; unfold getDrawerTranslationX in E; rewrite Hp in E.
  - pose proof (Pc _ E) as P0. split; [exact P0 |].
    apply Overlay_zIndex_behind. rewrite P0. discriminate.
  - pose proof (Po _ E) as P1. split; [exact P1 |].
    apply Overlay_zIndex_front. rewrite P1. reflexivity.
Qed.

Lemma overlay_of_left_drawer_at_rest_witness :
  let p := example_props Left front true in
  let w := run p 300 [SpringRest] (mount p 300) in
  opacity (Overlay_in p 300 w) == 1 /\ zIndex (Overlay_in p 300 w) = 0%Z.
Proof.
  intros p w.
  assert (Hg : gestureState w <> ACTIVE) by (vm_compute; discriminate).
  apply (proj2 (overlay_of_left_drawer_at_rest p 300 w eq_refl eq_refl Hg)).
  reflexivity.
Defined.

(** X7.  A right drawer of positive width, no wider than the viewport: at the open
    target the overlay is in front exactly when the viewport is narrower than
    1.95 times the drawer; at the closed target it is behind. *)
Theorem overlay_of_right_drawer_at_rest (p : Props) (drawerWidth : Q) :
  drawerPosition p = Right ->
  0 < drawerWidth ->
  drawerWidth <= dim_width (dimensions p) ->
  (zIndex (Overlay_animatedStyle
             (progress drawerWidth (getDrawerTranslationX p drawerWidth true))) = 0%Z
   <-> dim_width (dimensions p) < (39 # 20) * drawerWidth)
  /\ zIndex (Overlay_animatedStyle
               (progress drawerWidth (getDrawerTranslationX p drawerWidth false)))
     = (-1)%Z.
Proof.
  intros Hp Hw Hv. unfold getDrawerTranslationX. rewrite Hp.
  set (vw := dim_width (dimensions p)) in *.
  assert (Po : progress drawerWidth (vw - drawerWidth)
               == (2 * drawerWidth - vw) / drawerWidth).
  { unfold progress.
    destruct (abs_cases (vw - drawerWidth)) as [[H A] | [H A]]; [| exfalso; lra].
    rewrite A. apply Qdiv_comp; [ring | reflexivity]. }
  assert (Pc : progress drawerWidth vw == (drawerWidth - vw) / drawerWidth).
  { unfold progress.
    destruct (abs_cases vw) as [[H A] | [H A]]; [| exfalso; lra].
    rewrite A. reflexivity. }
  split.
  - rewrite Overlay_zIndex_front, Po. unfold PROGRESS_EPSILON. split; intro H.
    + apply (Qmult_lt_compat_r _ _ drawerWidth) in H; [| exact Hw].
      assert (E : (2 * drawerWidth - vw) / drawerWidth * drawerWidth
                  == 2 * drawerWidth - vw) by (field; lra).
      rewrite E in H. lra.
    + apply Qlt_shift_div_l; [exact Hw | lra].
  - apply Overlay_zIndex_behind. rewrite Pc. unfold PROGRESS_EPSILON.
    apply Qle_shift_div_r; [exact Hw | lra].
Qed.

(** The example's right drawer with a width of 200 on the 400 px viewport:
    open, and the overlay is behind the scene. *)
Lemma overlay_of_right_drawer_at_rest_witness :
  let p := example_props Right front true in
  zIndex (Overlay_animatedStyle
            (progress 200 (getDrawerTranslationX p 200 true))) = (-1)%Z
  /\ zIndex (Overlay_animatedStyle
               (progress 200 (getDrawerTranslationX p 200 false))) = (-1)%Z.
Proof.
  intro p.
  assert (Hv : 200 <= dim_width (dimensions p)) by discriminate.
  destruct (overlay_of_right_drawer_at_rest p 200 eq_refl eq_refl Hv) as [_ Hc].
  split; [reflexivity | exact Hc].
Defined.

(** ** What is drawn where *)

(** X8.  The drawer's own offset and the scene's, for a drawer of width [>= 0] on
    the left: whatever the type and the world, both lie in
    [[-drawerWidth, 0]]; a [back] drawer stays at 0, the scene of a [front] or
    [permanent] drawer stays at 0, and with [slide] the two move together. *)
Theorem rendered_offsets (p : Props) (drawerWidth : Q) (w : World) :
  drawerPosition p = Left ->
  0 <= drawerWidth ->
  (- drawerWidth <= drawerAnimatedStyle p drawerWidth w
   /\ drawerAnimatedStyle p drawerWidth w <= 0)
  /\ (- drawerWidth <= contentAnimatedStyle p drawerWidth w
      /\ contentAnimatedStyle p drawerWidth w <= 0)
  /\ (drawerType p = back -> drawerAnimatedStyle p drawerWidth w = 0)
  /\ (drawerType p = front \/ drawerType p = permanent ->
      contentAnimatedStyle p drawerWidth w = 0)
  /\ (drawerType p = slide ->
      drawerAnimatedStyle p drawerWidth w = contentAnimatedStyle p drawerWidth w).
Proof.
  intros Hp Hw.
  pose proof (translateX_bounds p drawerWidth (touchX w) (value (translationX w))
                (gestureState w) Hw) as B.
  rewrite Hp in B. fold (translateX_value p drawerWidth w) in B.
  unfold drawerAnimatedStyle, contentAnimatedStyle.
  repeat split.
  - destruct (DrawerType_eqb (drawerType p) back); lra.
  - destruct (DrawerType_eqb (drawerType p) back); lra.
  - destruct (DrawerType_eqb (drawerType p) front || DrawerType_eqb (drawerType p) permanent); lra.
  - destruct (DrawerType_eqb (drawerType p) front || DrawerType_eqb (drawerType p) permanent); lra.
  - intro H. rewrite H. reflexivity.
  - intros [H | H]; rewrite H; reflexivity.
  - intro H. rewrite H. reflexivity.
Qed.

Lemma rendered_offsets_witness :
  let p := example_props Left slide false in
  let w := run p 300 [SpringRest] (mount p 300) in
  drawerAnimatedStyle p 300 w == - (300)
  /\ drawerAnimatedStyle p 300 w = contentAnimatedStyle p 300 w.
Proof.
  intros p w.
  assert (Hw : 0 <= 300) by discriminate.
  destruct (rendered_offsets p 300 w eq_refl Hw) as (_ & _ & _ & _ & Hs).
  split; [reflexivity | exact (Hs eq_refl)].
Defined.

(** ** The drawer without a width *)

(** X9.  With a width of 0 (what a malformed percentage resolves to) the open and
    the closed target are one value and the clamp leaves no other: in every
    world the reaction finds the drawer at the open target, so it can only
    ever report [true]. *)
Theorem zero_width_drawer_reports_open (p : Props) (drawerWidth : Q) (w : World) :
  drawerWidth == 0 ->
  getDrawerTranslationX p drawerWidth true == getDrawerTranslationX p drawerWidth false
  /\ translateX_value p drawerWidth w == getDrawerTranslationX p drawerWidth true
  /\ reaction_prepare p drawerWidth (translateX_value p drawerWidth w) = Some true.
Proof.
  intro H0.
  assert (Hw : 0 <= drawerWidth) by lra.
  pose proof (translateX_bounds p drawerWidth (touchX w) (value (translationX w))
                (gestureState w) Hw) as B.
  fold (translateX_value p drawerWidth w) in B.
  assert (T : translateX_value p drawerWidth w
              == getDrawerTranslationX p drawerWidth true).
  { unfold getDrawerTranslationX. destruct (drawerPosition p); lra. }
  split; [unfold getDrawerTranslationX; destruct (drawerPosition p); lra |].
  split; [exact T |].
  unfold reaction_prepare. apply eqb_true in T. rewrite T. reflexivity.
Qed.

Lemma zero_width_drawer_reports_open_witness :
  let p := example_props Right front false in
  reaction_prepare p 0
    (translateX_value p 0 (run p 0 [SpringRest] (mount p 0))) = Some true.
Proof.
  intro p.
  exact (proj2 (proj2 (zero_width_drawer_reports_open p 0
                         (run p 0 [SpringRest] (mount p 0)) eq_refl))).
Defined.

(** ** One step, field by field *)

Lemma reaction_services (p : Props) (drawerWidth : Q) (e : Event) (a b : World) :
  StatusBar_hidden (after_writes p drawerWidth e a b) = StatusBar_hidden b
  /\ Keyboard_visible (after_writes p drawerWidth e a b) = Keyboard_visible b.
Proof.
  unfold after_writes, reaction, reaction_react.
  destruct (writes_shared_value e a); [| split; reflexivity].
  destruct (reaction_prepare _ _ _) as [o |]; split; reflexivity.
Qed.

Section Steps.
Variable p : Props.
Variable drawerWidth : Q.

Lemma step_mounted (w : World) (e : Event) :
  mounted w = true ->
  step p drawerWidth w e
  = after_writes p drawerWidth e w (handle p drawerWidth e w).
Proof. intro H. unfold step. rewrite H. reflexivity. Qed.

Lemma run_cons (e : Event) (es : list Event) (w : World) :
  run p drawerWidth (e :: es) w = run p drawerWidth es (step p drawerWidth w e).
Proof. reflexivity. Qed.

(** What [onStart] leaves behind. *)
Lemma step_OnStart (w : World) (ev : PanEvent) :
  mounted w = true ->
  let w1 := step p drawerWidth w (OnStart ev) in
  mounted w1 = true
  /\ ctx_startX w1 = value (translationX w)
  /\ translationX w1 = translationX w
  /\ touchX w1 = touchX w
  /\ gestureState w1 = ev_state ev
  /\ interactionHandleRef w1 = Some (nextHandle (InteractionManager w))
  /\ InteractionManager w1
     = {| handles := nextHandle (InteractionManager w)
                     :: handles (InteractionManager w);
          nextHandle := S (nextHandle (InteractionManager w)) |}
  /\ StatusBar_hidden w1
     = (if hideStatusBarOnOpen p then true else StatusBar_hidden w)
  /\ Keyboard_visible w1
     = match keyboardDismissMode p with
       | on_drag => false
       | none => Keyboard_visible w
       end.
Proof.
  intros Hm w1. unfold w1. rewrite step_mounted by exact Hm.
  destruct (reaction_shared p drawerWidth (OnStart ev) w (handle p drawerWidth (OnStart ev) w))
    as (E1 & E2 & E3 & E4 & E5).
  destruct (reaction_interaction p drawerWidth (OnStart ev) w (handle p drawerWidth (OnStart ev) w))
    as (E6 & E7).
  destruct (reaction_services p drawerWidth (OnStart ev) w (handle p drawerWidth (OnStart ev) w))
    as (E8 & E9).
  rewrite E1, E2, E3, E4, E5, E6, E7, E8, E9. simpl handle.
  unfold onStart, onGestureStart, hideStatusBar, hideKeyboard.
  destruct (hideStatusBarOnOpen p), (keyboardDismissMode p); simpl;
    rewrite Hm; repeat split.
Qed.

(** What [onActive] leaves behind. *)
Lemma step_OnActive (w : World) (ev : PanEvent) :
  mounted w = true ->
  let w1 := step p drawerWidth w (OnActive ev) in
  mounted w1 = true
  /\ ctx_startX w1 = ctx_startX w
  /\ translationX w1 = assign (ctx_startX w + ev_translationX ev)
  /\ touchX w1 = ev_x ev
  /\ gestureState w1 = ev_state ev
  /\ interactionHandleRef w1 = interactionHandleRef w
  /\ InteractionManager w1 = InteractionManager w
  /\ StatusBar_hidden w1 = StatusBar_hidden w
  /\ Keyboard_visible w1 = Keyboard_visible w.
Proof.
  intros Hm w1. unfold w1. rewrite step_mounted by exact Hm.
  destruct (reaction_shared p drawerWidth (OnActive ev) w (handle p drawerWidth (OnActive ev) w))
    as (E1 & E2 & E3 & E4 & E5).
  destruct (reaction_interaction p drawerWidth (OnActive ev) w (handle p drawerWidth (OnActive ev) w))
    as (E6 & E7).
  destruct (reaction_services p drawerWidth (OnActive ev) w (handle p drawerWidth (OnActive ev) w))
    as (E8 & E9).
  rewrite E1, E2, E3, E4, E5, E6, E7, E8, E9. simpl.
  rewrite Hm. repeat split.
Qed.

(** What [onEnd] leaves behind. *)
Lemma step_OnEnd (w : World) (ev : PanEvent) :
  mounted w = true ->
  let o := nextOpen p (ev_translationX ev) (ev_velocityX ev) in
  let w1 := step p drawerWidth w (OnEnd ev) in
  mounted w1 = true
  /\ translationX w1
     = translationX (toggleDrawer p drawerWidth o (Some (ev_velocityX ev)) w)
  /\ touchX w1 = edge p
  /\ gestureState w1 = ev_state ev
  /\ interactionHandleRef w1 = None
  /\ InteractionManager w1
     = match interactionHandleRef w with
       | Some h => clearInteractionHandle h (InteractionManager w)
       | None => InteractionManager w
       end
  /\ StatusBar_hidden w1 = StatusBar_hidden w
  /\ Keyboard_visible w1 = Keyboard_visible w.
Proof.
  intros Hm o w1. unfold w1. rewrite step_mounted by exact Hm.
  destruct (reaction_shared p drawerWidth (OnEnd ev) w (handle p drawerWidth (OnEnd ev) w))
    as (E1 & E2 & E3 & E4 & E5).
  destruct (reaction_interaction p drawerWidth (OnEnd ev) w (handle p drawerWidth (OnEnd ev) w))
    as (E6 & E7).
  destruct (reaction_services p drawerWidth (OnEnd ev) w (handle p drawerWidth (OnEnd ev) w))
    as (E8 & E9).
  rewrite E1, E2, E3, E5, E6, E7, E8, E9. simpl handle.
  unfold onEnd, onGestureEnd, endInteraction. simpl.
  destruct (interactionHandleRef w) eqn:R; simpl; rewrite ?R, Hm; repeat split.
Qed.

(** The events in the middle of a gesture keep the component mounted and do
    not touch the interaction handle. *)
Lemma step_inside_gesture (w : World) (e : Event) :
  mounted w = true -> inside_gesture e = true ->
  let w1 := step p drawerWidth w e in
  mounted w1 = true
  /\ interactionHandleRef w1 = interactionHandleRef w
  /\ InteractionManager w1 = InteractionManager w.
Proof.
  intros Hm He w1. unfold w1. rewrite step_mounted by exact Hm.
  destruct (reaction_shared p drawerWidth e w (handle p drawerWidth e w))
    as (_ & _ & _ & _ & E5).
  destruct (reaction_interaction p drawerWidth e w (handle p drawerWidth e w))
    as (E6 & E7).
  rewrite E5, E6, E7.
  destruct e as [o | ev | ev | ev | v | | key |]; try discriminate; simpl.
  - auto.
  - auto.
  - destruct (animation (translationX w)); simpl; auto.
  - destruct (animation (translationX w)); simpl; auto.
  - unfold handleEscape.
    destruct (Platform_OS p); auto. destruct (String.eqb key "Escape"); simpl; auto.
Qed.

Lemma run_inside_gesture (es : list Event) (w : World) :
  mounted w = true -> forallb inside_gesture es = true ->
  let w1 := run p drawerWidth es w in
  mounted w1 = true
  /\ interactionHandleRef w1 = interactionHandleRef w
  /\ InteractionManager w1 = InteractionManager w.
Proof.
  revert w. induction es as [| e es IH]; intros w Hm Hes; [simpl; auto |].
  simpl in Hes. apply andb_true_iff in Hes. destruct Hes as [He Hes].
  destruct (step_inside_gesture w e Hm He) as (M & R & I).
  rewrite run_cons.
  destruct (IH (step p drawerWidth w e) M Hes) as (M' & R' & I').
  cbv zeta. rewrite M', R', I', R, I. auto.
Qed.

(** A request and the rest of its spring, from any mounted world. *)
Lemma request_then_rest (o : bool) (w : World) :
  mounted w = true ->
  let w2 := run p drawerWidth [RequestOpen o; SpringRest] w in
  mounted w2 = true
  /\ translationX w2 = assign (getDrawerTranslationX p drawerWidth o)
  /\ touchX w2 = edge p
  /\ gestureState w2 = gestureState w.
Proof.
  intros Hm w2. unfold w2. rewrite !run_cons. simpl run.
  set (w1 := step p drawerWidth w (RequestOpen o)).
  assert (H1 : mounted w1 = true
               /\ translationX w1
                  = translationX (toggleDrawer p drawerWidth o None w)
               /\ touchX w1 = edge p /\ gestureState w1 = gestureState w).
  { unfold w1. rewrite step_mounted by exact Hm.
    destruct (reaction_shared p drawerWidth (RequestOpen o) w (handle p drawerWidth (RequestOpen o) w))
      as (E1 & E2 & E3 & _ & E5).
    rewrite E1, E2, E3, E5. simpl. rewrite Hm. auto. }
  destruct H1 as (M1 & T1 & X1 & G1).
  rewrite step_mounted by exact M1.
  destruct (reaction_shared p drawerWidth SpringRest w1 (handle p drawerWidth SpringRest w1))
    as (E1 & E2 & E3 & _ & E5).
  rewrite E1, E2, E3, E5. simpl handle. rewrite T1. simpl.
  rewrite M1, X1, G1. auto.
Qed.
End Steps.

(** ** A gesture from start to end *)

Lemma translateX_target_not_active (p : Props) (drawerWidth : Q) (o : bool) (w : World) :
  0 <= drawerWidth -> gestureState w <> ACTIVE ->
  translationX w = assign (getDrawerTranslationX p drawerWidth o) ->
  translateX_value p drawerWidth w == getDrawerTranslationX p drawerWidth o.
Proof.
  intros Hw Hg Ht. unfold translateX_value. rewrite Ht. simpl.
  apply translateX_at_target; assumption.
Qed.

(** X10.  The samples of a gesture are absolute: after [onStart] and any number of
    [onActive] samples, the shared values are those of the last sample alone
    ([translationX] is the offset at the start plus the last translation),
    and no spring is left to move the drawer: a frame or the rest of a spring
    changes nothing. *)
Theorem gesture_samples_are_absolute (p : Props) (drawerWidth : Q) (w : World)
        (ev0 : PanEvent) (evs : list PanEvent) (ev : PanEvent) :
  mounted w = true ->
  let w' := run p drawerWidth
              (OnStart ev0 :: List.map OnActive evs ++ [OnActive ev]) w in
  touchX w' = ev_x ev
  /\ translationX w' = assign (value (translationX w) + ev_translationX ev)
  /\ gestureState w' = ev_state ev
  /\ (forall v, step p drawerWidth w' (SpringFrame v) = w')
  /\ step p drawerWidth w' SpringRest = w'.
Proof.
  intros Hm w'.
  destruct (step_OnStart p drawerWidth w ev0 Hm) as (M1 & C1 & _).
  assert (A : forall l u, mounted u = true ->
                let u' := run p drawerWidth (List.map OnActive l) u in
                mounted u' = true /\ ctx_startX u' = ctx_startX u).
  { induction l as [| a l IH]; intros u Hu; [simpl; auto |].
    simpl List.map. rewrite run_cons.
    destruct (step_OnActive p drawerWidth u a Hu) as (Ma & Ca & _).
    destruct (IH (step p drawerWidth u (OnActive a)) Ma) as (Mb & Cb).
    cbv zeta. rewrite Mb, Cb, Ca. auto. }
  unfold w'. rewrite run_cons, run_app.
  set (w1 := step p drawerWidth w (OnStart ev0)) in *.
  destruct (A evs w1 M1) as (M2 & C2).
  set (w2 := run p drawerWidth (List.map OnActive evs) w1) in *.
  change (run p drawerWidth [OnActive ev] w2)
    with (step p drawerWidth w2 (OnActive ev)).
  destruct (step_OnActive p drawerWidth w2 ev M2)
    as (M3 & _ & T3 & X3 & G3 & _).
  set (w3 := step p drawerWidth w2 (OnActive ev)) in *.
  split; [exact X3 |].
  split; [rewrite T3, C2, C1; reflexivity |].
  split; [exact G3 |].
  assert (An : animation (translationX w3) = None) by (rewrite T3; reflexivity).
  split.
  - intro v. rewrite step_mounted by exact M3.
    unfold after_writes. simpl. rewrite An. reflexivity.
  - rewrite step_mounted by exact M3.
    unfold after_writes. simpl. rewrite An. reflexivity.
Qed.

Lemma gesture_samples_are_absolute_witness :
  let p := example_props Left front true in
  let w := run p 300 [SpringRest] (mount p 300) in
  let w' := run p 300
              (OnStart (pan 200 0 0 ACTIVE)
               :: List.map OnActive [pan 150 (- (50)) 0 ACTIVE; pan 90 (- (110)) 0 ACTIVE]
               ++ [OnActive (pan 120 (- (80)) 0 ACTIVE)]) w in
  value (translationX w') == - (80) /\ touchX w' = 120.
Proof.
  intros p w w'.
  destruct (gesture_samples_are_absolute p 300 w (pan 200 0 0 ACTIVE)
              [pan 150 (- (50)) 0 ACTIVE; pan 90 (- (110)) 0 ACTIVE]
              (pan 120 (- (80)) 0 ACTIVE) eq_refl) as (X & T & _).
  split; [unfold w'; rewrite T; reflexivity | exact X].
Defined.

(** X11.  The end of a gesture: [onEnd] leaves the drawer where the finger left it
    and starts a spring, seeded with the velocity of the event, toward the
    target [nextOpen] decided; when that spring rests, [translationX] is that
    target and so is the clamped offset (for a width [>= 0] and an event
    whose state is not ACTIVE): the drawer does not rest between its
    targets. *)
Theorem gesture_end_settles (p : Props) (drawerWidth : Q) (w : World) (ev : PanEvent) :
  mounted w = true ->
  ev_state ev <> ACTIVE ->
  0 <= drawerWidth ->
  let o := nextOpen p (ev_translationX ev) (ev_velocityX ev) in
  let w1 := step p drawerWidth w (OnEnd ev) in
  let w2 := step p drawerWidth w1 SpringRest in
  value (translationX w1) = value (translationX w)
  /\ option_map toValue (animation (translationX w1))
     = Some (getDrawerTranslationX p drawerWidth o)
  /\ option_map (fun a => velocity (config a)) (animation (translationX w1))
     = Some (Some (ev_velocityX ev))
  /\ touchX w1 = edge p
  /\ translationX w2 = assign (getDrawerTranslationX p drawerWidth o)
  /\ translateX_value p drawerWidth w2 == getDrawerTranslationX p drawerWidth o.
Proof.
  intros Hm Hs Hw o w1 w2.
  destruct (step_OnEnd p drawerWidth w ev Hm) as (M1 & T1 & X1 & G1 & _).
  fold w1 in M1, T1, X1, G1. fold o in T1.
  assert (H2 : translationX w2 = assign (getDrawerTranslationX p drawerWidth o)
               /\ gestureState w2 = ev_state ev).
  { unfold w2. rewrite step_mounted by exact M1.
    destruct (reaction_shared p drawerWidth SpringRest w1 (handle p drawerWidth SpringRest w1))
      as (_ & E2 & E3 & _).
    rewrite E2, E3. simpl handle. rewrite T1. simpl. rewrite G1. auto. }
  destruct H2 as (T2 & G2).
  rewrite T1. simpl.
  repeat split; try assumption.
  apply translateX_target_not_active; [exact Hw | rewrite G2; exact Hs | exact T2].
Qed.

(** The example's closed drawer, dragged 80 px to the right and released. *)
Lemma gesture_end_settles_witness :
  let p := example_props Left front false in
  let w := run p 300 [SpringRest; OnStart (pan 10 0 0 ACTIVE);
                      OnActive (pan 90 80 0 ACTIVE)] (mount p 300) in
  let w2 := step p 300 (step p 300 w (OnEnd (pan 90 80 0 END))) SpringRest in
  value (translationX w) == - (220)
  /\ translateX_value p 300 w2 == 0.
Proof.
  intros p w w2.
  assert (Hs : ev_state (pan 90 80 0 END) <> ACTIVE) by discriminate.
  assert (Hw : 0 <= 300) by discriminate.
  destruct (gesture_end_settles p 300 w (pan 90 80 0 END) eq_refl Hs Hw)
    as (_ & _ & _ & _ & _ & T).
  split; [reflexivity | exact T].
Defined.

(** ** Requests, whatever was going on *)

(** X13.  A press on the overlay closes the drawer when gestures are enabled and
    does nothing when they are not: after the press and the rest of the
    spring [translationX] is the closed target, and so is the clamped offset
    outside an active gesture. *)
Theorem overlay_press_closes (p : Props) (drawerWidth : Q) (w : World) :
  mounted w = true ->
  gestureState w <> ACTIVE ->
  0 <= drawerWidth ->
  (gestureEnabled p = true ->
   let w2 := step p drawerWidth (Overlay_onPress p drawerWidth w) SpringRest in
   translationX w2 = assign (getDrawerTranslationX p drawerWidth false)
   /\ translateX_value p drawerWidth w2
      == getDrawerTranslationX p drawerWidth false)
  /\ (gestureEnabled p = false -> Overlay_onPress p drawerWidth w = w).
Proof.
  intros Hm Hg Hw. unfold Overlay_onPress. split; intro He; rewrite He.
  - destruct (request_then_rest p drawerWidth false w Hm) as (M2 & T2 & X2 & G2).
    change (run p drawerWidth [RequestOpen false; SpringRest] w)
      with (step p drawerWidth (step p drawerWidth w (RequestOpen false)) SpringRest)
      in M2, T2, X2, G2.
    cbv zeta. split; [exact T2 |].
    apply translateX_target_not_active; [exact Hw | rewrite G2; exact Hg | exact T2].
  - reflexivity.
Qed.

Lemma overlay_press_closes_witness :
  let p := example_props Left front true in
  let w := run p 300 [SpringRest] (mount p 300) in
  translateX_value p 300 w == 0
  /\ translateX_value p 300 (step p 300 (Overlay_onPress p 300 w) SpringRest)
     == - (300).
Proof.
  intros p w.
  assert (Hg : gestureState w <> ACTIVE) by (vm_compute; discriminate).
  assert (Hw : 0 <= 300) by discriminate.
  destruct (proj1 (overlay_press_closes p 300 w eq_refl Hg Hw) eq_refl) as (_ & T).
  split; [reflexivity | exact T].
Defined.

(** ** More on the interaction handle *)

(** X14.  A whole gesture gives back what it took: after [onStart], any events that
    are neither a start, nor an end, nor the unmount (samples, frames of a
    spring, requests, keys), and [onEnd], no handle is referenced and the
    manager holds exactly the handles it held before. *)
Theorem gesture_releases_its_handle (p : Props) (drawerWidth : Q) (w : World)
        (ev0 ev1 : PanEvent) (es : list Event) :
  mounted w = true ->
  handles_fresh w ->
  forallb inside_gesture es = true ->
  let w' := run p drawerWidth (OnStart ev0 :: es ++ [OnEnd ev1]) w in
  interactionHandleRef w' = None
  /\ handles (InteractionManager w') = handles (InteractionManager w)
  /\ nextHandle (InteractionManager w') = S (nextHandle (InteractionManager w)).
Proof.
  intros Hm Hf Hes w'. unfold w'. rewrite run_cons, run_app.
  destruct (step_OnStart p drawerWidth w ev0 Hm)
    as (M1 & _ & _ & _ & _ & R1 & I1 & _).
  set (w1 := step p drawerWidth w (OnStart ev0)) in *.
  destruct (run_inside_gesture p drawerWidth es w1 M1 Hes) as (M2 & R2 & I2).
  set (w2 := run p drawerWidth es w1) in *.
  change (run p drawerWidth [OnEnd ev1] w2)
    with (step p drawerWidth w2 (OnEnd ev1)).
  destruct (step_OnEnd p drawerWidth w2 ev1 M2)
    as (_ & _ & _ & _ & R3 & I3 & _).
  split; [exact R3 |].
  rewrite I3, R2, R1, I2, I1. simpl.
  rewrite Nat.eqb_refl. simpl. split; [| reflexivity].
  apply filter_fresh. exact Hf.
Qed.

Lemma gesture_releases_its_handle_witness :
  let p := example_props Left front false in
  let w' := run p 300
              (OnStart (pan 10 0 0 ACTIVE)
               :: [OnActive (pan 50 40 0 ACTIVE); SpringFrame 7; KeyUp "a";
                   OnActive (pan 110 100 0 ACTIVE)]
               ++ [OnEnd (pan 110 100 300 END)]) (mount p 300) in
  interactionHandleRef w' = None /\ handles (InteractionManager w') = [].
Proof.
  intro p.
  assert (Hf : handles_fresh (mount p 300)) by (intros h []).
  destruct (gesture_releases_its_handle p 300 (mount p 300)
              (pan 10 0 0 ACTIVE) (pan 110 100 300 END)
              [OnActive (pan 50 40 0 ACTIVE); SpringFrame 7; KeyUp "a";
               OnActive (pan 110 100 0 ACTIVE)] eq_refl Hf eq_refl)
    as (R & H & _).
  split; [exact R | exact H].
Defined.

(** X15.  A second [onStart] before any [onEnd] (the first gesture was cancelled
    or failed) overwrites the reference: the one [onEnd] that follows clears
    the second handle, the first stays held, and since no handle is
    referenced any more a further [onEnd] does not release it. *)
Theorem restarted_gesture_leaks_a_handle (p : Props) (drawerWidth : Q) (w : World)
        (ev0 ev1 ev2 ev3 : PanEvent) :
  mounted w = true ->
  handles_fresh w ->
  let w' := run p drawerWidth [OnStart ev0; OnStart ev1; OnEnd ev2] w in
  interactionHandleRef w' = None
  /\ handles (InteractionManager w')
     = nextHandle (InteractionManager w) :: handles (InteractionManager w)
  /\ handles (InteractionManager (step p drawerWidth w' (OnEnd ev3)))
     = nextHandle (InteractionManager w) :: handles (InteractionManager w).
Proof.
  intros Hm Hf w'. unfold w'. rewrite !run_cons. simpl run.
  destruct (step_OnStart p drawerWidth w ev0 Hm)
    as (M1 & _ & _ & _ & _ & R1 & I1 & _).
  set (w1 := step p drawerWidth w (OnStart ev0)) in *.
  destruct (step_OnStart p drawerWidth w1 ev1 M1)
    as (M2 & _ & _ & _ & _ & R2 & I2 & _).
  set (w2 := step p drawerWidth w1 (OnStart ev1)) in *.
  destruct (step_OnEnd p drawerWidth w2 ev2 M2)
    as (M3 & _ & _ & _ & R3 & I3 & _).
  set (w3 := step p drawerWidth w2 (OnEnd ev2)) in *.
  destruct (step_OnEnd p drawerWidth w3 ev3 M3)
    as (_ & _ & _ & _ & _ & I4 & _).
  assert (H3 : handles (InteractionManager w3)
               = nextHandle (InteractionManager w) :: handles (InteractionManager w)).
  { rewrite I3, R2, I2, I1. simpl.
    rewrite Nat.eqb_refl. simpl.
    replace (Nat.eqb (nextHandle (InteractionManager w))
                     (S (nextHandle (InteractionManager w)))) with false
      by (symmetry; apply Nat.eqb_neq; lia).
    simpl. f_equal.
    apply filter_fresh. intros h Hh. specialize (Hf h Hh). lia. }
  split; [exact R3 |]. split; [exact H3 |].
  rewrite I4, R3. exact H3.
Qed.

Lemma restarted_gesture_leaks_a_handle_witness :
  let p := example_props Left front false in
  let w' := run p 300 [OnStart (pan 10 0 0 ACTIVE); OnStart (pan 12 0 0 ACTIVE);
                       OnEnd (pan 90 78 0 END)] (mount p 300) in
  interactionHandleRef w' = None /\ handles (InteractionManager w') = [1%nat].
Proof.
  intro p.
  assert (Hf : handles_fresh (mount p 300)) by (intros h []).
  destruct (restarted_gesture_leaks_a_handle p 300 (mount p 300)
              (pan 10 0 0 ACTIVE) (pan 12 0 0 ACTIVE) (pan 90 78 0 END)
              (pan 90 78 0 END) eq_refl Hf) as (R & H & _).
  split; [exact R | exact H].
Defined.

(** ** The status bar and the keyboard *)

Lemma step_services (p : Props) (drawerWidth : Q) (w : World) (e : Event) :
  (hideStatusBarOnOpen p = false ->
   StatusBar_hidden (step p drawerWidth w e) = StatusBar_hidden w)
  /\ (keyboardDismissMode p = none ->
      Keyboard_visible (step p drawerWidth w e) = Keyboard_visible w)
  /\ (is_OnStart e = false -> is_Unmount e = false ->
      StatusBar_hidden (step p drawerWidth w e) = StatusBar_hidden w)
  /\ (is_OnStart e = false ->
      Keyboard_visible (step p drawerWidth w e) = Keyboard_visible w).
Proof.
  unfold step. destruct (mounted w); [| repeat split].
  destruct (reaction_services p drawerWidth e w (handle p drawerWidth e w)) as (E8 & E9).
  rewrite E8, E9.
  assert (K : forall key, StatusBar_hidden (handleEscape key w) = StatusBar_hidden w
                          /\ Keyboard_visible (handleEscape key w) = Keyboard_visible w).
  { intro key. unfold handleEscape. destruct (String.eqb key "Escape"); auto. }
  destruct e as [o | ev | ev | ev | v | | key |]; simpl;
    unfold onStart, onGestureStart, onEnd, onGestureEnd, endInteraction,
      hideStatusBar, hideKeyboard; simpl.
  - repeat split.
  - repeat split; try discriminate; intro H; rewrite H;
      try destruct (hideStatusBarOnOpen p);
      try destruct (keyboardDismissMode p); reflexivity.
  - repeat split.
  - destruct (interactionHandleRef w); repeat split.
  - destruct (animation (translationX w)); repeat split.
  - destruct (animation (translationX w)); repeat split.
  - destruct (K key) as [K1 K2].
    destruct (Platform_OS p); rewrite ?K1, ?K2; repeat split.
  - repeat split; try discriminate; intro H; try rewrite H; try reflexivity;
      destruct (hideStatusBarOnOpen p); reflexivity.
Qed.

(** X16.  A drawer that is not configured for them never touches the status bar or
    the keyboard: with [hideStatusBarOnOpen] false no sequence of events
    changes the status bar, and with [keyboardDismissMode] ['none'] none
    changes the keyboard. *)
Theorem services_left_alone (p : Props) (drawerWidth : Q) :
  (hideStatusBarOnOpen p = false ->
   forall es w,
     StatusBar_hidden (run p drawerWidth es w) = StatusBar_hidden w)
  /\ (keyboardDismissMode p = none ->
      forall es w,
        Keyboard_visible (run p drawerWidth es w) = Keyboard_visible w).
Proof.
  split; intros H es; induction es as [| e es IH]; intro w; try reflexivity;
    rewrite run_cons, IH.
  - apply (proj1 (step_services p drawerWidth w e) H).
  - apply (proj1 (proj2 (step_services p drawerWidth w e)) H).
Qed.

(** ** The Escape key *)

(** X18.  A key released on a mounted drawer: on the web, Escape calls
    [setOpen(false)] once and changes nothing else (the drawer does not move
    until the host changes [open]); any other key, and every key on another
    platform, changes nothing at all. *)
Theorem key_up (p : Props) (drawerWidth : Q) (w : World) (key : string) :
  mounted w = true ->
  step p drawerWidth w (KeyUp key)
  = if is_escape p (KeyUp key) then setOpen false w else w.
Proof.
  intro Hm. rewrite step_mounted by exact Hm.
  unfold after_writes. simpl. unfold handleEscape.
  destruct (Platform_OS p); try reflexivity.
Qed.

Lemma key_up_witness :
  let p := on_platform web (example_props Left front true) in
  let w := run p 300 [SpringRest] (mount p 300) in
  setOpen_calls (step p 300 w (KeyUp "Escape")) = setOpen_calls w ++ [false]
  /\ translateX_value p 300 (step p 300 w (KeyUp "Escape")) == 0
  /\ step p 300 w (KeyUp "Enter") = w.
Proof.
  intros p w.
  rewrite (key_up p 300 w "Escape" eq_refl).
  rewrite (key_up p 300 w "Enter" eq_refl).
  repeat split; reflexivity.
Defined.

(** ** What the reaction reports *)

Lemma reaction_prepare_compat (p : Props) (drawerWidth x y : Q) :
  x == y -> reaction_prepare p drawerWidth x = reaction_prepare p drawerWidth y.
Proof.
  intro H. unfold reaction_prepare.
  rewrite (eqb_compat_l _ _ _ H), (eqb_compat_l x y _ H). reflexivity.
Qed.

Lemma reported_compat (p : Props) (drawerWidth x y : Q) :
  x == y -> reported p drawerWidth x = reported p drawerWidth y.
Proof.
  intro H. unfold reported. rewrite (reaction_prepare_compat p drawerWidth x y H).
  reflexivity.
Qed.

Lemma reaction_prepare_open (p : Props) (drawerWidth x : Q) :
  x == getDrawerTranslationX p drawerWidth true ->
  reaction_prepare p drawerWidth x = Some true.
Proof.
  intro H. unfold reaction_prepare. apply eqb_true in H. rewrite H. reflexivity.
Qed.

Lemma reaction_prepare_closed (p : Props) (drawerWidth x : Q) :
  ~ x == getDrawerTranslationX p drawerWidth true ->
  x == getDrawerTranslationX p drawerWidth false ->
  reaction_prepare p drawerWidth x = Some false.
Proof.
  intros Ho Hc. unfold reaction_prepare.
  apply eqb_false in Ho. apply eqb_true in Hc. rewrite Ho, Hc. reflexivity.
Qed.

Lemma reaction_prepare_elsewhere (p : Props) (drawerWidth x : Q) :
  ~ x == getDrawerTranslationX p drawerWidth true ->
  ~ x == getDrawerTranslationX p drawerWidth false ->
  reaction_prepare p drawerWidth x = None.
Proof.
  intros Ho Hc. unfold reaction_prepare.
  apply eqb_false in Ho. apply eqb_false in Hc. rewrite Ho, Hc. reflexivity.
Qed.

(** With a positive width the two targets are two values. *)
Lemma targets_apart (p : Props) (drawerWidth : Q) :
  0 < drawerWidth ->
  ~ getDrawerTranslationX p drawerWidth false
    == getDrawerTranslationX p drawerWidth true.
Proof.
  intro H. unfold getDrawerTranslationX. destruct (drawerPosition p); lra.
Qed.

Lemma reaction_prepare_target (p : Props) (drawerWidth x : Q) (o : bool) :
  0 < drawerWidth ->
  x == getDrawerTranslationX p drawerWidth o ->
  reaction_prepare p drawerWidth x = Some o.
Proof.
  intros Hw H. destruct o.
  - apply reaction_prepare_open. exact H.
  - apply reaction_prepare_closed; [| exact H].
    rewrite H. apply targets_apart. exact Hw.
Qed.

(** Outside an active gesture a value between the targets is its own clamp,
    and the reaction has nothing to report there. *)
Lemma translateX_between (p : Props) (drawerWidth tX v : Q) (g : GestureState) :
  g <> ACTIVE -> between p drawerWidth v ->
  translateX p drawerWidth tX v g == v
  /\ reported p drawerWidth (translateX p drawerWidth tX v g) = [].
Proof.
  intros Hg Hb.
  assert (E : translateX p drawerWidth tX v g == v).
  { unfold translateX, touchDistance.
    replace (GestureState_eqb g ACTIVE) with false
      by (destruct g; try reflexivity; contradiction Hg; reflexivity).
    rewrite andb_false_r. unfold between in Hb.
    destruct (drawerPosition p); rewrite minmax_inside by lra; lra. }
  split; [exact E |].
  rewrite (reported_compat p drawerWidth _ v E). unfold reported.
  rewrite reaction_prepare_elsewhere; [reflexivity | |];
    unfold getDrawerTranslationX; unfold between in Hb;
    destruct (drawerPosition p); lra.
Qed.

(** The calls of one step of a mounted drawer, the Escape key apart. *)
Lemma step_calls (p : Props) (drawerWidth : Q) (w : World) (e : Event) :
  mounted w = true -> is_escape p e = false ->
  translateX_value p drawerWidth (step p drawerWidth w e)
  = translateX_value p drawerWidth (handle p drawerWidth e w)
  /\ setOpen_calls (step p drawerWidth w e)
     = setOpen_calls w
       ++ (if writes_shared_value e w
           then reported p drawerWidth
                  (translateX_value p drawerWidth (step p drawerWidth w e))
           else []).
Proof.
  intros Hm He. unfold step. rewrite Hm.
  rewrite reaction_translateX, reaction_calls, (handle_calls p drawerWidth e w He).
  split; reflexivity.
Qed.

(** ** When the host hears of the drawer *)

(** C3, as amended.  For every event of a mounted drawer other than the
    Escape key on the web: [setOpen] is not called when the clamped offset
    after the event is neither the open nor the closed target (an
    intermediate frame), nor when the handler wrote no shared value; after a
    handler that wrote one, the reaction runs and calls [setOpen(true)] when
    the clamped offset is exactly the open target and [setOpen(false)] when
    it is exactly the closed target (and that is not the open one), whether
    or not the offset or the openness is a new one. *)
Theorem setOpen_on_settle_only (p : Props) (drawerWidth : Q) (w : World) (e : Event) :
  mounted w = true ->
  is_escape p e = false ->
  let w' := step p drawerWidth w e in
  let tx' := translateX_value p drawerWidth w' in
  (~ tx' == getDrawerTranslationX p drawerWidth true ->
   ~ tx' == getDrawerTranslationX p drawerWidth false ->
   setOpen_calls w' = setOpen_calls w)
  /\ (writes_shared_value e w = false -> setOpen_calls w' = setOpen_calls w)
  /\ (writes_shared_value e w = true ->
      tx' == getDrawerTranslationX p drawerWidth true ->
      exists k, setOpen_calls w' = setOpen_calls w ++ repeat true (S k))
  /\ (writes_shared_value e w = true ->
      ~ tx' == getDrawerTranslationX p drawerWidth true ->
      tx' == getDrawerTranslationX p drawerWidth false ->
      exists k, setOpen_calls w' = setOpen_calls w ++ repeat false (S k)).
Proof.
  intros Hm He w' tx'.
  destruct (step_calls p drawerWidth w e Hm He) as [_ Ec].
  fold w' in Ec. fold tx' in Ec. unfold reported in Ec.
  split; [| split; [| split]].
  - intros Ho Hc. rewrite Ec, (reaction_prepare_elsewhere _ _ _ Ho Hc).
    destruct (writes_shared_value e w); apply app_nil_r.
  - intro Hn. rewrite Ec, Hn. apply app_nil_r.
  - intros Hy Ho. exists 0%nat.
    rewrite Ec, Hy, (reaction_prepare_open _ _ _ Ho). reflexivity.
  - intros Hy Ho Hc. exists 0%nat.
    rewrite Ec, Hy, (reaction_prepare_closed _ _ _ Ho Hc). reflexivity.
Qed.

(** A closing spring of the example's drawer: no call at the frame at -150,
    [setOpen(false)] when it rests at -300. *)
Lemma setOpen_on_settle_only_witness :
  let p := example_props Left front false in
  let w := run p 300 [SpringFrame (- (150))] (mount p 300) in
  setOpen_calls w = setOpen_calls (mount p 300)
  /\ exists k, setOpen_calls (step p 300 w SpringRest)
               = setOpen_calls w ++ repeat false (S k).
Proof.
  intros p w. split.
  - apply (proj1 (setOpen_on_settle_only p 300 (mount p 300) (SpringFrame (- (150)))
                    eq_refl eq_refl)).
    + vm_compute. discriminate.
    + vm_compute. discriminate.
  - apply (proj2 (proj2 (proj2
             (setOpen_on_settle_only p 300 w SpringRest eq_refl eq_refl)))).
    + reflexivity.
    + vm_compute. discriminate.
    + vm_compute. reflexivity.
Defined.

(** C3, as stated, fails.  On the web, the Escape key calls [setOpen(false)]
    while the drawer is half way (at -150, between -300 and 0).  And a call
    needs no change of the settled openness: the first run of the reaction
    finds the value 0 the shared value starts with, the open target of a left
    drawer, and reports [true] for a drawer mounted closed; a request to open
    a drawer that rests open reports [true] again. *)
Lemma setOpen_called_between_targets :
  let p := on_platform web (example_props Left front false) in
  let w := run p 300 [SpringFrame (- (150))] (mount p 300) in
  let w' := step p 300 w (KeyUp "Escape") in
  let q := example_props Left front true in
  let u := run q 300 [SpringRest] (mount q 300) in
  let u' := step q 300 u (RequestOpen true) in
  (setOpen_calls w' = setOpen_calls w ++ [false]
   /\ translateX_value p 300 w' == - (150)
   /\ ~ translateX_value p 300 w' == getDrawerTranslationX p 300 true
   /\ ~ translateX_value p 300 w' == getDrawerTranslationX p 300 false)
  /\ (open p = false /\ exists l, setOpen_calls (mount p 300) = true :: l)
  /\ (translateX_value q 300 u == getDrawerTranslationX q 300 true
      /\ translateX_value q 300 u' == translateX_value q 300 u
      /\ exists l, setOpen_calls u' = setOpen_calls u ++ true :: l).
Proof.
  intros p w w' q u u'.
  split; [| split].
  - repeat split; try reflexivity; vm_compute; discriminate.
  - split; [reflexivity | exists []; reflexivity].
  - split; [reflexivity |]. split; [reflexivity | exists []; reflexivity].
Qed.

(** ** A request, the frames of its spring and its rest *)

Section Springs.
Variable p : Props.
Variable drawerWidth : Q.

(** Any number of requests: the spring of the last one is attached, the value
    has not moved, and each request had the reaction look at the offset. *)
Lemma run_requests (o : bool) (n : nat) (w : World) :
  mounted w = true ->
  let w1 := run p drawerWidth (repeat (RequestOpen o) (S n)) w in
  mounted w1 = true
  /\ value (translationX w1) = value (translationX w)
  /\ option_map toValue (animation (translationX w1))
     = Some (getDrawerTranslationX p drawerWidth o)
  /\ touchX w1 = edge p
  /\ gestureState w1 = gestureState w
  /\ setOpen_calls w1
     = setOpen_calls w
       ++ List.concat (repeat (reported p drawerWidth
                            (at_edge p drawerWidth (value (translationX w)) (gestureState w)))
                         (S n)).
Proof.
  assert (One : forall u, mounted u = true ->
            let u1 := step p drawerWidth u (RequestOpen o) in
            mounted u1 = true
            /\ value (translationX u1) = value (translationX u)
            /\ option_map toValue (animation (translationX u1))
               = Some (getDrawerTranslationX p drawerWidth o)
            /\ touchX u1 = edge p
            /\ gestureState u1 = gestureState u
            /\ setOpen_calls u1
               = setOpen_calls u
                 ++ reported p drawerWidth
                      (at_edge p drawerWidth (value (translationX u)) (gestureState u))).
  { intros u Hu u1.
    destruct (step_calls p drawerWidth u (RequestOpen o) Hu eq_refl) as [Et Ec].
    fold u1 in Et, Ec. simpl writes_shared_value in Ec. rewrite Et in Ec.
    unfold u1, step. rewrite Hu.
    destruct (reaction_shared p drawerWidth (RequestOpen o) u
                (handle p drawerWidth (RequestOpen o) u)) as (E1 & E2 & E3 & _ & E5).
    rewrite E1, E2, E3, E5. simpl. rewrite Hu.
    repeat split. unfold u1, step in Ec. rewrite Hu in Ec. exact Ec. }
  revert w. induction n as [| n IH]; intros w Hm.
  - simpl repeat. simpl List.concat. rewrite app_nil_r. apply One. exact Hm.
  - change (repeat (RequestOpen o) (S (S n)))
      with (RequestOpen o :: repeat (RequestOpen o) (S n)).
    change (run p drawerWidth (RequestOpen o :: repeat (RequestOpen o) (S n)) w)
      with (run p drawerWidth (repeat (RequestOpen o) (S n))
              (step p drawerWidth w (RequestOpen o))).
    destruct (One w Hm) as (M1 & V1 & A1 & X1 & G1 & C1).
    destruct (IH (step p drawerWidth w (RequestOpen o)) M1)
      as (M2 & V2 & A2 & X2 & G2 & C2).
    cbv zeta. rewrite M2, V2, A2, X2, G2, C2, V1, G1, C1.
    repeat split.
    change (List.concat (repeat (reported p drawerWidth
                              (at_edge p drawerWidth (value (translationX w)) (gestureState w)))
                           (S (S n))))
      with (reported p drawerWidth (at_edge p drawerWidth (value (translationX w)) (gestureState w))
            ++ List.concat (repeat (reported p drawerWidth
                                 (at_edge p drawerWidth (value (translationX w)) (gestureState w)))
                              (S n))).
    rewrite app_assoc. reflexivity.
Qed.

(** The frames of a spring: it stays attached, and each frame had the
    reaction look at the offset. *)
Lemma run_frames (vs : list Q) (w : World) (target : Q) :
  mounted w = true ->
  option_map toValue (animation (translationX w)) = Some target ->
  let w1 := run p drawerWidth (List.map SpringFrame vs) w in
  mounted w1 = true
  /\ option_map toValue (animation (translationX w1)) = Some target
  /\ touchX w1 = touchX w
  /\ gestureState w1 = gestureState w
  /\ setOpen_calls w1
     = setOpen_calls w
       ++ List.concat (List.map (fun v => reported p drawerWidth
                                       (translateX p drawerWidth (touchX w) v
                                          (gestureState w))) vs).
Proof.
  revert w. induction vs as [| v vs IH]; intros w Hm Ha.
  - simpl. rewrite app_nil_r. auto.
  - simpl List.map.
    change (run p drawerWidth (SpringFrame v :: List.map SpringFrame vs) w)
      with (run p drawerWidth (List.map SpringFrame vs)
              (step p drawerWidth w (SpringFrame v))).
    destruct (animation (translationX w)) as [a |] eqn:An; [| discriminate].
    assert (H1 : mounted (step p drawerWidth w (SpringFrame v)) = true
                 /\ translationX (step p drawerWidth w (SpringFrame v))
                    = {| value := v; animation := Some a |}
                 /\ touchX (step p drawerWidth w (SpringFrame v)) = touchX w
                 /\ gestureState (step p drawerWidth w (SpringFrame v))
                    = gestureState w).
    { unfold step. rewrite Hm.
      destruct (reaction_shared p drawerWidth (SpringFrame v) w
                  (handle p drawerWidth (SpringFrame v) w))
        as (E1 & E2 & E3 & _ & E5).
      rewrite E1, E2, E3, E5. simpl. rewrite An. simpl. auto. }
    destruct H1 as (M1 & T1 & X1 & G1).
    destruct (step_calls p drawerWidth w (SpringFrame v) Hm eq_refl) as [_ C1].
    simpl writes_shared_value in C1. rewrite An in C1.
    unfold translateX_value in C1. rewrite T1, X1, G1 in C1. simpl in C1.
    assert (A1 : option_map toValue
                   (animation (translationX (step p drawerWidth w (SpringFrame v))))
                 = Some target) by (rewrite T1; exact Ha).
    destruct (IH (step p drawerWidth w (SpringFrame v)) M1 A1)
      as (M2 & A2 & X2 & G2 & C2).
    cbv zeta. rewrite M2, A2, X2, G2, C2, X1, G1, C1.
    repeat split. simpl. rewrite app_assoc. reflexivity.
Qed.

(** The rest of a spring. *)
Lemma step_rest (w : World) (target : Q) :
  mounted w = true ->
  option_map toValue (animation (translationX w)) = Some target ->
  let w1 := step p drawerWidth w SpringRest in
  mounted w1 = true
  /\ translationX w1 = assign target
  /\ touchX w1 = touchX w
  /\ gestureState w1 = gestureState w
  /\ setOpen_calls w1
     = setOpen_calls w
       ++ reported p drawerWidth
            (translateX p drawerWidth (touchX w) target (gestureState w)).
Proof.
  intros Hm Ha w1.
  destruct (animation (translationX w)) as [a |] eqn:An; [| discriminate].
  simpl in Ha. injection Ha as Ha.
  assert (H1 : mounted w1 = true /\ translationX w1 = assign target
               /\ touchX w1 = touchX w /\ gestureState w1 = gestureState w).
  { unfold w1, step. rewrite Hm.
    destruct (reaction_shared p drawerWidth SpringRest w
                (handle p drawerWidth SpringRest w)) as (E1 & E2 & E3 & _ & E5).
    rewrite E1, E2, E3, E5. simpl. rewrite An. simpl. rewrite Ha. auto. }
  destruct H1 as (M1 & T1 & X1 & G1).
  destruct (step_calls p drawerWidth w SpringRest Hm eq_refl) as [_ C1].
  fold w1 in C1. simpl writes_shared_value in C1. rewrite An in C1.
  unfold translateX_value in C1. rewrite T1, X1, G1 in C1. simpl in C1.
  repeat split; assumption.
Qed.

(** Requests, frames and the rest, in one run. *)
Lemma run_round (o : bool) (n : nat) (vs : list Q) (w : World) :
  mounted w = true ->
  let w2 := run p drawerWidth
              (repeat (RequestOpen o) (S n) ++ List.map SpringFrame vs ++ [SpringRest])
              w in
  mounted w2 = true
  /\ translationX w2 = assign (getDrawerTranslationX p drawerWidth o)
  /\ touchX w2 = edge p
  /\ gestureState w2 = gestureState w
  /\ setOpen_calls w2
     = setOpen_calls w
       ++ List.concat (repeat (reported p drawerWidth
                            (at_edge p drawerWidth (value (translationX w)) (gestureState w)))
                         (S n))
       ++ List.concat (List.map (fun v => reported p drawerWidth
                                       (at_edge p drawerWidth v (gestureState w))) vs)
       ++ reported p drawerWidth
            (at_edge p drawerWidth (getDrawerTranslationX p drawerWidth o) (gestureState w)).
Proof.
  intros Hm w2. unfold w2. rewrite !run_app.
  destruct (run_requests o n w Hm) as (M1 & V1 & A1 & X1 & G1 & C1).
  set (w1 := run p drawerWidth (repeat (RequestOpen o) (S n)) w) in *.
  destruct (run_frames vs w1 _ M1 A1) as (M2 & A2 & X2 & G2 & C2).
  set (wf := run p drawerWidth (List.map SpringFrame vs) w1) in *.
  change (run p drawerWidth [SpringRest] wf) with (step p drawerWidth wf SpringRest).
  destruct (step_rest wf _ M2 A2) as (M3 & T3 & X3 & G3 & C3).
  rewrite M3, T3, X3, G3, C3, X2, G2, C2, X1, G1, C1.
  repeat split. unfold at_edge. rewrite <- !app_assoc. reflexivity.
Qed.

(** Outside an active gesture, with the frames between the targets, the
    frames report nothing. *)
Lemma frames_silent (vs : list Q) (g : GestureState) :
  g <> ACTIVE -> Forall (between p drawerWidth) vs ->
  List.concat (List.map (fun v => reported p drawerWidth (at_edge p drawerWidth v g)) vs) = [].
Proof.
  intros Hg Hvs. induction Hvs as [| v vs Hv _ IH]; [reflexivity |].
  simpl. rewrite IH. unfold at_edge.
  rewrite (proj2 (translateX_between p drawerWidth (edge p) v g Hg Hv)).
  reflexivity.
Qed.

(** The round, as the host sees it outside an active gesture: the reports of
    the requests, at the offset the drawer had, and then the report of the
    target. *)
Lemma run_round_idle (o : bool) (n : nat) (vs : list Q) (w : World) :
  mounted w = true -> gestureState w <> ACTIVE -> 0 <= drawerWidth ->
  Forall (between p drawerWidth) vs ->
  let w2 := run p drawerWidth
              (repeat (RequestOpen o) (S n) ++ List.map SpringFrame vs ++ [SpringRest])
              w in
  translateX_value p drawerWidth w2 == getDrawerTranslationX p drawerWidth o
  /\ setOpen_calls w2
     = setOpen_calls w
       ++ List.concat (repeat (reported p drawerWidth (translateX_value p drawerWidth w))
                         (S n))
       ++ reported p drawerWidth (getDrawerTranslationX p drawerWidth o).
Proof.
  intros Hm Hg Hw Hvs w2.
  destruct (run_round o n vs w Hm) as (M2 & T2 & X2 & G2 & C2). fold w2 in M2, T2, X2, G2, C2.
  split.
  - unfold translateX_value. rewrite T2. simpl.
    apply translateX_at_target; [exact Hw | rewrite G2; exact Hg].
  - rewrite C2, (frames_silent vs _ Hg Hvs). simpl app.
    unfold at_edge.
    rewrite (translateX_idle p drawerWidth (edge p) (touchX w) _ _ Hg).
    fold (translateX_value p drawerWidth w).
    rewrite (reported_compat p drawerWidth _ _
               (translateX_at_target p drawerWidth o (edge p) _ Hw Hg)).
    reflexivity.
Qed.
End Springs.



Lemma In_reported (p : Props) (drawerWidth x : Q) (b : bool) :
  In b (reported p drawerWidth x) -> reaction_prepare p drawerWidth x = Some b.
Proof.
  unfold reported. destruct (reaction_prepare p drawerWidth x) as [o |]; simpl.
  - intros [H | []]. rewrite H. reflexivity.
  - contradiction.
Qed.




(** X12.  A request supersedes the spring that was running: after
    [toggleDrawer(o)], the frames of its spring and its rest, [translationX]
    is the target of [o] and [touchX] is at the screen edge, wherever the
    drawer was and whatever it was heading for.  Outside an active gesture,
    for a positive width and frames between the targets, the clamped offset
    is that target, the frames report nothing, and the last thing the host is
    told is [o]; before that it is only told what the offset was when the
    request was made. *)
Theorem request_supersedes (p : Props) (drawerWidth : Q) (w : World) (o : bool)
        (vs : list Q) :
  mounted w = true ->
  gestureState w <> ACTIVE ->
  0 < drawerWidth ->
  Forall (between p drawerWidth) vs ->
  let target := getDrawerTranslationX p drawerWidth o in
  let w2 := run p drawerWidth
              (RequestOpen o :: List.map SpringFrame vs ++ [SpringRest]) w in
  translationX w2 = assign target
  /\ touchX w2 = edge p
  /\ translateX_value p drawerWidth w2 == target
  /\ exists l,
       setOpen_calls w2 = setOpen_calls w ++ l ++ [o]
       /\ forall b, In b l ->
            reaction_prepare p drawerWidth (translateX_value p drawerWidth w)
            = Some b.
Proof.
  intros Hm Hg Hw Hvs target w2.
  destruct (run_round p drawerWidth o 0 vs w Hm) as (_ & T2 & X2 & _).
  destruct (run_round_idle p drawerWidth o 0 vs w Hm Hg (Qlt_le_weak _ _ Hw) Hvs)
    as (E2 & C2).
  change (run p drawerWidth
            (repeat (RequestOpen o) 1 ++ List.map SpringFrame vs ++ [SpringRest]) w)
    with w2 in T2, X2, E2, C2.
  split; [exact T2 |]. split; [exact X2 |]. split; [exact E2 |].
  exists (reported p drawerWidth (translateX_value p drawerWidth w)). split.
  - rewrite C2. simpl List.concat. rewrite app_nil_r.
    unfold reported at 2.
    rewrite (reaction_prepare_target p drawerWidth _ o Hw (Qeq_refl _)).
    reflexivity.
  - intros b Hb. apply In_reported. exact Hb.
Qed.

(** The example's drawer is on its way open when the host asks to close. *)
Lemma request_supersedes_witness :
  let p := example_props Left front false in
  let w := run p 300 [SpringRest; RequestOpen true; SpringFrame (- (120))]
             (mount p 300) in
  let w2 := run p 300
              (RequestOpen false :: List.map SpringFrame [- (200); - (290)]
               ++ [SpringRest]) w in
  value (translationX w) == - (120)
  /\ value (translationX w2) == - (300)
  /\ setOpen_calls w2 = setOpen_calls w ++ [false].
Proof.
  intros p w w2.
  assert (Hg : gestureState w <> ACTIVE) by (vm_compute; discriminate).
  assert (Hvs : Forall (between p 300) [- (200); - (290)]).
  { repeat constructor. }
  destruct (request_supersedes p 300 w false [- (200); - (290)] eq_refl Hg eq_refl Hvs)
    as (T & _ & _ & _).
  split; [reflexivity |].
  split; [unfold w2; rewrite T; reflexivity | reflexivity].
Defined.

(** ** The status bar through a gesture *)


(** X17.  The start of a gesture hides the status bar (when [hideStatusBarOnOpen])
    and dismisses the keyboard (when [keyboardDismissMode] is ['on-drag']).
    Neither comes back with the end of the gesture: while the host passes the
    same props, the status bar stays hidden through the samples, the end of
    the gesture, the frames and the rest of the spring and the keys that
    follow, and the unmount shows it; none of these events, nor a request,
    shows the keyboard again. *)
Theorem gesture_start_hides_services (p : Props) (drawerWidth : Q) (w : World)
        (ev0 : PanEvent) (es : list Event) :
  mounted w = true ->
  (hideStatusBarOnOpen p = true ->
   forallb (fun e => negb (is_Unmount e) && negb (is_RequestOpen e)) es = true ->
   StatusBar_hidden (run p drawerWidth (OnStart ev0 :: es) w) = true
   /\ StatusBar_hidden
        (step p drawerWidth (run p drawerWidth (OnStart ev0 :: es) w) Unmount)
      = false)
  /\ (keyboardDismissMode p = on_drag ->
      Keyboard_visible (run p drawerWidth (OnStart ev0 :: es) w) = false).
Proof.
  intro Hm.
  destruct (step_OnStart p drawerWidth w ev0 Hm)
    as (M1 & _ & _ & _ & _ & _ & _ & S1 & K1).
  set (w1 := step p drawerWidth w (OnStart ev0)) in *.
  split.
  - intros Hh Hes. rewrite Hh in S1. rewrite run_cons. fold w1.
    assert (A : forall l u, mounted u = true -> StatusBar_hidden u = true ->
                  forallb (fun e => negb (is_Unmount e) && negb (is_RequestOpen e)) l = true ->
                  mounted (run p drawerWidth l u) = true
                  /\ StatusBar_hidden (run p drawerWidth l u) = true).
    { induction l as [| a l IH]; intros u Mu Su Hl; [simpl; auto |].
      simpl in Hl. apply andb_true_iff in Hl. destruct Hl as [Ha Hl].
      apply andb_true_iff in Ha. destruct Ha as [Ha _].
      apply negb_true_iff in Ha.
      rewrite run_cons. apply IH; [| | exact Hl].
      - rewrite step_mounted by exact Mu.
        destruct (reaction_shared p drawerWidth a u (handle p drawerWidth a u))
          as (_ & _ & _ & _ & E5).
        rewrite E5.
        destruct a as [o | ev | ev | ev | v | | key |]; try discriminate; simpl;
          unfold onStart, onGestureStart, onEnd, onGestureEnd, endInteraction,
            hideStatusBar, hideKeyboard, handleEscape; simpl.
        + exact Mu.
        + destruct (hideStatusBarOnOpen p), (keyboardDismissMode p); exact Mu.
        + exact Mu.
        + destruct (interactionHandleRef u); exact Mu.
        + destruct (animation (translationX u)); exact Mu.
        + destruct (animation (translationX u)); exact Mu.
        + destruct (Platform_OS p); try exact Mu.
          destruct (String.eqb key "Escape"); exact Mu.
      - destruct (is_OnStart a) eqn:Ea.
        + destruct a as [o | ev | ev | ev | v | | key |]; try discriminate.
          destruct (step_OnStart p drawerWidth u ev Mu)
            as (_ & _ & _ & _ & _ & _ & _ & S' & _).
          rewrite S', Hh. reflexivity.
        + rewrite (proj1 (proj2 (proj2 (step_services p drawerWidth u a))) Ea Ha).
          exact Su. }
    destruct (A es w1 M1 S1 Hes) as (M2 & S2).
    split; [exact S2 |].
    rewrite step_mounted by exact M2.
    destruct (reaction_services p drawerWidth Unmount (run p drawerWidth es w1)
                (handle p drawerWidth Unmount (run p drawerWidth es w1))) as (E8 & _).
    rewrite E8. simpl. unfold hideStatusBar. rewrite Hh. reflexivity.
  - intro Hk. rewrite Hk in K1. rewrite run_cons. fold w1.
    assert (A : forall l u, Keyboard_visible u = false ->
                  Keyboard_visible (run p drawerWidth l u) = false).
    { induction l as [| a l IH]; intros u Ku; [exact Ku |].
      rewrite run_cons. apply IH.
      destruct (is_OnStart a) eqn:Ea.
      - destruct a; try discriminate.
        unfold step. destruct (mounted u) eqn:Mu; [| exact Ku].
        destruct (step_OnStart p drawerWidth u ev Mu)
          as (_ & _ & _ & _ & _ & _ & _ & _ & K').
        unfold step in K'. rewrite Mu in K'. rewrite K', Hk. reflexivity.
      - rewrite (proj2 (proj2 (proj2 (step_services p drawerWidth u a))) Ea).
        exact Ku. }
    apply A. exact K1.
Qed.

Lemma gesture_start_hides_services_witness :
  let p := with_services true on_drag (example_props Left front false) in
  let w := run p 300 [OnStart (pan 10 0 0 ACTIVE); OnActive (pan 100 90 0 ACTIVE);
                      OnEnd (pan 100 (- (90)) (- (10)) END); SpringRest]
             (mount p 300) in
  StatusBar_hidden (mount p 300) = false
  /\ StatusBar_hidden w = true
  /\ Keyboard_visible w = false
  /\ StatusBar_hidden (step p 300 w Unmount) = false.
Proof.
  intros p w.
  destruct (gesture_start_hides_services p 300 (mount p 300) (pan 10 0 0 ACTIVE)
              [OnActive (pan 100 90 0 ACTIVE);
               OnEnd (pan 100 (- (90)) (- (10)) END); SpringRest] eq_refl)
    as (S & K).
  destruct (S eq_refl eq_refl) as (S1 & S2).
  split; [reflexivity |].
  split; [exact S1 |]. split; [exact (K eq_refl) | exact S2].
Defined.

(** ** The permanent drawer *)

Lemma mount_ready (p : Props) (drawerWidth : Q) :
  mounted (mount p drawerWidth) = true
  /\ option_map toValue (animation (translationX (mount p drawerWidth)))
     = Some (getDrawerTranslationX p drawerWidth (open p))
  /\ touchX (mount p drawerWidth) = edge p.
Proof.
  unfold mount, reaction, reaction_react, hideStatusBar.
  destruct (reaction_prepare _ _ _) as [o |];
    destruct (hideStatusBarOnOpen p); simpl; auto.
Qed.

(** The clamp of a drawer that is not of type front does not read the state
    of the gesture. *)
Lemma translateX_at_target_permanent (p : Props) (drawerWidth tX : Q)
      (g : GestureState) (o : bool) :
  drawerType p = permanent -> 0 <= drawerWidth ->
  translateX p drawerWidth tX (getDrawerTranslationX p drawerWidth o) g
  == getDrawerTranslationX p drawerWidth o.
Proof.
  intros Ht Hw. unfold translateX, touchDistance, getDrawerTranslationX.
  rewrite Ht. simpl.
  destruct (drawerPosition p), o; rewrite minmax_inside by lra; lra.
Qed.

Lemma isOpenSettled_at_target (p : Props) (drawerWidth : Q) (w : World) (o : bool) :
  0 < drawerWidth ->
  translateX_value p drawerWidth w == getDrawerTranslationX p drawerWidth o ->
  isOpenSettled p drawerWidth w = o.
Proof.
  intros Hw H. unfold isOpenSettled. rewrite (eqb_compat_l _ _ _ H).
  destruct o; [apply eqb_refl |].
  apply eqb_false. apply targets_apart. exact Hw.
Qed.

(** C7, as amended.  For a permanent drawer the [enabled] prop of the gesture
    handler is false whatever [gestureEnabled] and [swipeEnabled] are, as
    long as the host's [gestureHandlerProps] carry no [enabled] of their own.
    The flag [isOpen] of the render is true, but the settled openness is not
    forced: the drawer is driven by the [open] prop as with every other
    type, so when the spring of [toggleDrawer(open)] has come to rest (after
    the mount, or after a later call) the clamped offset is the target of
    [open] and [isOpenSettled] is [open] itself (for a positive width). *)
Theorem permanent_drawer (p : Props) (drawerWidth : Q) (w : World) :
  drawerType p = permanent ->
  (match gestureHandlerProps p with
   | Some g => ghp_enabled g = None
   | None => True
   end -> PanGestureHandler_enabled p = false)
  /\ isOpen p = true
  /\ (0 < drawerWidth ->
      isOpenSettled p drawerWidth
        (run p drawerWidth [SpringRest] (mount p drawerWidth)) = open p)
  /\ (0 < drawerWidth -> mounted w = true ->
      isOpenSettled p drawerWidth
        (run p drawerWidth [RequestOpen (open p); SpringRest] w) = open p).
Proof.
  intro Ht. split; [| split; [| split]].
  - intro Hg. unfold PanGestureHandler_enabled. rewrite Ht. simpl.
    destruct (gestureHandlerProps p) as [g |]; [| reflexivity].
    rewrite Hg. reflexivity.
  - unfold isOpen. rewrite Ht. reflexivity.
  - intro Hw. destruct (mount_ready p drawerWidth) as (M & A & X).
    change (run p drawerWidth [SpringRest] (mount p drawerWidth))
      with (step p drawerWidth (mount p drawerWidth) SpringRest).
    destruct (step_rest p drawerWidth (mount p drawerWidth) _ M A)
      as (_ & T1 & _).
    apply isOpenSettled_at_target; [exact Hw |].
    unfold translateX_value. rewrite T1. simpl.
    apply translateX_at_target_permanent; [exact Ht | lra].
  - intros Hw Hm.
    destruct (run_round p drawerWidth (open p) 0 [] w Hm) as (_ & T2 & _).
    change (run p drawerWidth
              (repeat (RequestOpen (open p)) 1 ++ List.map SpringFrame [] ++ [SpringRest]) w)
      with (run p drawerWidth [RequestOpen (open p); SpringRest] w) in T2.
    apply isOpenSettled_at_target; [exact Hw |].
    unfold translateX_value. rewrite T2. simpl.
    apply translateX_at_target_permanent; [exact Ht | lra].
Qed.

Lemma permanent_drawer_witness :
  let p := example_props Right permanent true in
  PanGestureHandler_enabled p = false
  /\ isOpen p = true
  /\ isOpenSettled p 300 (run p 300 [SpringRest] (mount p 300)) = true.
Proof.
  intro p.
  destruct (permanent_drawer p 300 (mount p 300) eq_refl) as (G & O & S & _).
  split; [exact (G I) | split; [exact O | exact (S eq_refl)]].
Defined.

(** C7, as stated, fails, twice.  The spread of [gestureHandlerProps] comes
    after the drawer's own [enabled], so a host that passes [enabled: true]
    has a recognizer that is enabled on a permanent drawer.  And the settled
    openness of a permanent drawer is not always true: mounted with
    [open = false] it comes to rest on the closed target, where
    [isOpenSettled] is false and the reaction reports [false]. *)
Lemma permanent_drawer_enabled_by_host :
  let p :=
    {| open := false; gestureEnabled := true; swipeEnabled := true;
       drawerPosition := Left; drawerType := permanent;
       keyboardDismissMode := on_drag; swipeEdgeWidth := 32;
       swipeDistanceThreshold := 60; swipeVelocityThreshold := 500;
       hideStatusBarOnOpen := false;
       drawerStyle := None;
       gestureHandlerProps := Some {| ghp_enabled := Some true |};
       dimensions := {| dim_width := 400; dim_height := 800 |};
       Platform_OS := ios |} in
  let q := example_props Left permanent false in
  let w := run q 300 [SpringRest] (mount q 300) in
  (drawerType p = permanent /\ PanGestureHandler_enabled p = true)
  /\ (drawerType q = permanent
      /\ translateX_value q 300 w == getDrawerTranslationX q 300 false
      /\ isOpenSettled q 300 w = false
      /\ reaction_prepare q 300 (translateX_value q 300 w) = Some false
      /\ exists l, setOpen_calls w = l ++ [false]).
Proof.
  intros p q w. split; [split; reflexivity |].
  repeat split. exists (removelast (setOpen_calls w)). reflexivity.
Qed.
